(** * Document ingestion and extraction pipeline (documentProcessor.js)

    A shallow embedding of the server-side document processor: file
    validation, text extraction per document category, metadata enrichment,
    assembly of the processed document and batch processing.

    Conventions of the embedding.
    - A JavaScript string is the list of its UTF-16 code units ([jsstring]).
    - A Node [Buffer] is a list of bytes.
    - JavaScript numbers that hold counts (lengths, pages) are [N]; file
      sizes and the size limit are [Z] (the limit can be negative); numbers
      that are genuinely fractional (confidence, success rate) are IEEE-754
      binary64 values, i.e. Rocq's primitive floats.
    - [async] functions are computations in a state-and-exception monad over
      an abstract world, in which the external collaborators (PDF parser,
      Word converter, image library, OCR service, blob store, clock, id
      generator) live.
    - Calls to the logger are not modelled: they do not influence results. *)

From Stdlib Require Import ZArith NArith List Ascii String Floats DecimalString.
From Stdlib.Strings Require Import Byte.
From stdpp Require Import base list strings gmap.

(* Decimal literals such as 0.95 denote the nearest binary64 value, as in
   JavaScript. *)
Set Warnings "-inexact-float".

Local Open Scope N_scope.

(** ** JavaScript strings *)

Module JS.

Definition jsstring := list N.

(** A source literal as a sequence of code units. *)
Definition js (s : string) : jsstring :=
  map N_of_ascii (list_ascii_of_string s).

(** [===] on strings. *)
Definition str_eqb (a b : jsstring) : bool := bool_decide (a = b).

(** [Array.prototype.includes] on an array of strings. *)
Definition array_includes (arr : list jsstring) (x : jsstring) : bool :=
  existsb (str_eqb x) arr.

(** [String.prototype.startsWith]. *)
Fixpoint startsWith (s p : jsstring) {struct p} : bool :=
  match p, s with
  | [], _ => true
  | _ :: _, [] => false
  | c :: p', d :: s' => (c =? d) && startsWith s' p'
  end.

(** [String.prototype.includes]: [sub] occurs somewhere in [s]. *)
Fixpoint includes (s sub : jsstring) : bool :=
  startsWith s sub ||
  match s with
  | [] => false
  | _ :: s' => includes s' sub
  end.

(** [String.prototype.split] with a one-character string separator. *)
Fixpoint split_on (sep : N) (cur s : jsstring) : list jsstring :=
  match s with
  | [] => [cur]
  | c :: s' =>
      if c =? sep then cur :: split_on sep [] s'
      else split_on sep (cur ++ [c]) s'
  end.

Definition split (s : jsstring) (sep : N) : list jsstring := split_on sep [] s.

(** [Array.prototype.join]. *)
Fixpoint join (sep : jsstring) (l : list jsstring) : jsstring :=
  match l with
  | [] => []
  | [x] => x
  | x :: rest => x ++ sep ++ join sep rest
  end.

(** The code units matched by the regular-expression class [\s], which are
    also the ones removed by [trim]: WhiteSpace and LineTerminator. *)
Definition isWhiteSpace (c : N) : bool :=
  ((9 <=? c) && (c <=? 13)) || (c =? 32) || (c =? 160) || (c =? 5760) ||
  ((8192 <=? c) && (c <=? 8202)) || (c =? 8232) || (c =? 8233) ||
  (c =? 8239) || (c =? 8287) || (c =? 12288) || (c =? 65279).

Fixpoint trimStart (s : jsstring) : jsstring :=
  match s with
  | [] => []
  | c :: s' => if isWhiteSpace c then trimStart s' else s
  end.

Definition trimEnd (s : jsstring) : jsstring := rev (trimStart (rev s)).

Definition trim (s : jsstring) : jsstring := trimEnd (trimStart s).

(** [s.split(/\s+/)]: the pieces of [s] between maximal runs of white
    space. [in_ws] says that the previous code unit was white space, [cur]
    is the piece being read. A leading or trailing run leaves an empty
    piece, and the empty string splits into one empty piece. *)
Fixpoint split_ws_from (in_ws : bool) (cur s : jsstring) : list jsstring :=
  match s with
  | [] => [cur]
  | c :: s' =>
      if isWhiteSpace c then
        if in_ws then split_ws_from true [] s'
        else cur :: split_ws_from true [] s'
      else split_ws_from false (cur ++ [c]) s'
  end.

Definition split_ws (s : jsstring) : list jsstring := split_ws_from false [] s.

(** [String.prototype.toLowerCase], code unit by code unit. The mapping is
    the Unicode one on Basic Latin and Latin-1 (A-Z, and U+00C0-U+00DE
    without the multiplication sign); code units from U+0100 on are left
    as they are. So the function is the one of JavaScript exactly on the
    strings whose code units are all below U+0100; a statement that names
    the lower-cased value of another string says so in a hypothesis. *)
Definition lowerUnit (c : N) : N :=
  if (65 <=? c) && (c <=? 90) then c + 32
  else if (192 <=? c) && (c <=? 222) && negb (c =? 215) then c + 32
  else c.

Definition toLowerCase (s : jsstring) : jsstring := map lowerUnit s.

(** [Array.prototype.slice(0, n)]. *)
Definition slice0 {A} (n : nat) (l : list A) : list A := firstn n l.

(** [String(n)] for an integer. Exact for the integers that a JavaScript
    number holds exactly and prints in plain decimal, in particular for
    every integer of magnitude up to 2^53. *)
Definition numberToString (z : Z) : jsstring :=
  js (NilZero.string_of_int (Z.to_int z)).

(** [parseInt(s)] without a radix: leading white space is skipped, then an
    optional sign, then an optional [0x]/[0X] prefix selecting radix 16,
    then the longest run of digits. [None] is NaN. The result is the
    integer that the digits denote; JavaScript rounds it to a binary64
    number, so the two agree for results of magnitude up to 2^53. *)
Definition digitValue (c : N) : option N :=
  if (48 <=? c) && (c <=? 57) then Some (c - 48)
  else if (97 <=? c) && (c <=? 122) then Some (c - 87)
  else if (65 <=? c) && (c <=? 90) then Some (c - 55)
  else None.

Fixpoint parseDigits (radix : N) (acc : option N) (s : jsstring) : option N :=
  match s with
  | [] => acc
  | c :: s' =>
      match digitValue c with
      | Some d =>
          if d <? radix
          then parseDigits radix (Some (default 0 acc * radix + d)) s'
          else acc
      | None => acc
      end
  end.

Definition parseUnsigned (s : jsstring) : option N :=
  match s with
  | 48 :: x :: s' =>
      if (x =? 120) || (x =? 88) then parseDigits 16 None s'
      else parseDigits 10 None s
  | _ => parseDigits 10 None s
  end.

Definition parseInt (s : jsstring) : option Z :=
  match trimStart s with
  | 45 :: s' => (fun n => (- Z.of_N n)%Z) <$> parseUnsigned s'
  | 43 :: s' => Z.of_N <$> parseUnsigned s'
  | s' => Z.of_N <$> parseUnsigned s'
  end.

End JS.
Export JS.

(** ** Node buffers *)

Module Buf.

Definition Buffer := list byte.

(** Decoder state of the UTF-8 decoder between two bytes: the number of
    continuation bytes still needed, the code point read so far, and the
    range allowed for the next continuation byte. *)
Record utf8_state := {
  needed : nat;
  code_point : N;
  lower : N;
  upper : N
}.

Definition utf8_init : utf8_state :=
  {| needed := 0; code_point := 0; lower := 128; upper := 191 |}.

(** A byte read with no sequence pending: the code points it completes and
    the next state. *)
Definition utf8_lead (b : N) : list N * utf8_state :=
  if b <=? 127 then ([b], utf8_init)
  else if (194 <=? b) && (b <=? 223) then
    ([], {| needed := 1; code_point := N.land b 31; lower := 128; upper := 191 |})
  else if (224 <=? b) && (b <=? 239) then
    ([], {| needed := 2; code_point := N.land b 15;
            lower := if b =? 224 then 160 else 128;
            upper := if b =? 237 then 159 else 191 |})
  else if (240 <=? b) && (b <=? 244) then
    ([], {| needed := 3; code_point := N.land b 7;
            lower := if b =? 240 then 144 else 128;
            upper := if b =? 244 then 143 else 191 |})
  else ([65533], utf8_init).

(** The decoder: an ill-formed sequence is replaced by U+FFFD and decoding
    goes on with the byte that ended it; a sequence cut off by the end of
    the buffer is replaced by U+FFFD as well. *)
Fixpoint utf8_code_points (st : utf8_state) (bytes : list N) : list N :=
  match bytes with
  | [] => match needed st with O => [] | S _ => [65533] end
  | b :: rest =>
      match needed st with
      | O => let '(out, st') := utf8_lead b in out ++ utf8_code_points st' rest
      | S n =>
          if (lower st <=? b) && (b <=? upper st) then
            let cp := N.lor (N.shiftl (code_point st) 6) (N.land b 63) in
            match n with
            | O => cp :: utf8_code_points utf8_init rest
            | S _ =>
                utf8_code_points
                  {| needed := n; code_point := cp; lower := 128; upper := 191 |}
                  rest
            end
          else
            let '(out, st') := utf8_lead b in
            65533 :: out ++ utf8_code_points st' rest
      end
  end.

(** A code point as UTF-16 code units. *)
Definition utf16_units (cp : N) : list N :=
  if cp <? 65536 then [cp]
  else [55296 + N.shiftr (cp - 65536) 10; 56320 + N.land (cp - 65536) 1023].

Inductive Encoding := Utf8 | Latin1.

(** [buffer.toString(encoding)]. Node documents that with 'utf8' a byte
    sequence that is not valid UTF-8 is replaced by U+FFFD, and that
    'latin1' maps each byte to the code unit of the same value. *)
Definition toString (enc : Encoding) (buffer : Buffer) : jsstring :=
  match enc with
  | Utf8 => concat (map utf16_units (utf8_code_points utf8_init (map Byte.to_N buffer)))
  | Latin1 => map Byte.to_N buffer
  end.

End Buf.
Export Buf(Buffer).

(** ** Values, errors and the computation monad *)

(** Values that the pipeline only passes on (library metadata). *)
#[local] Unset Elimination Schemes.
Inductive JsValue :=
| JUndefined
| JString (s : jsstring)
| JNumber (z : Z)
| JFloat (x : float)
| JArray (items : list JsValue)
| JObject (fields : list (string * JsValue)).
#[local] Set Elimination Schemes.

(** A thrown [Error]. *)
Record Error := { message : jsstring }.

Inductive Result (A : Type) :=
| Ok (a : A)
| Throw (e : Error).
Arguments Ok {A} a.
Arguments Throw {A} e.

Definition is_ok {A} (r : Result A) : bool :=
  match r with Ok _ => true | Throw _ => false end.

(** A computation reads and updates the world and returns or throws. *)
Definition M (World A : Type) : Type := World -> Result A * World.

Definition ret {World A} (a : A) : M World A := fun w => (Ok a, w).

Definition throw {World A} (e : Error) : M World A := fun w => (Throw e, w).

Definition bind {World A B} (m : M World A) (k : A -> M World B) : M World B :=
  fun w =>
    match m w with
    | (Ok a, w') => k a w'
    | (Throw e, w') => (Throw e, w')
    end.

(** [try { m } catch (e) { h e }]. *)
Definition try_catch {World A} (m : M World A) (h : Error -> M World A) : M World A :=
  fun w =>
    match m w with
    | (Ok a, w') => (Ok a, w')
    | (Throw e, w') => h e w'
    end.

(** A synchronous call that may throw. *)
Definition lift {World A} (r : Result A) : M World A := fun w => (r, w).

Declare Scope js_scope.
Delimit Scope js_scope with js_m.
Notation "x <- m ;; k" := (bind m (fun x => k))
  (at level 100, m at next level, right associativity) : js_scope.

(** [Number(n)] for a length. *)
Definition Number_of_nat (n : nat) : float :=
  PrimFloat.of_uint63 (Uint63.of_Z (Z.of_nat n)).

(** ** Data model *)

(** An uploaded file, as the upload middleware hands it over. *)
Record File := {
  originalname : jsstring;
  mimetype : jsstring;
  size : Z;
  buffer : Buffer
}.

(** The configuration read from [process.env]. *)
Record Env := {
  MAX_FILE_SIZE_MB : option jsstring;
  ALLOWED_FILE_TYPES : option jsstring
}.

Record ValidationResult := {
  isValid : bool;
  error : option jsstring
}.

(** What an extractor returns. A field that the source leaves out of the
    object literal is [None] ([encoding]) or an absent key ([metadata]). *)
Module ExtractionResult.
Record t := {
  text : jsstring;
  pages : N;
  confidence : float;
  encoding : option jsstring;
  metadata : gmap string JsValue
}.
End ExtractionResult.

(** The object returned by [processDocument]. *)
Module ProcessedDocument.
Record t := {
  documentId : jsstring;
  originalName : jsstring;
  mimeType : jsstring;
  size : Z;
  uploadUrl : jsstring;
  extractedText : jsstring;
  confidence : float;
  pages : N;
  wordCount : nat;
  processingTime : Z;
  metadata : gmap string JsValue
}.
End ProcessedDocument.

(** An entry of the batch's error list. *)
Module FailedDocument.
Record t := {
  fileName : jsstring;
  error : jsstring
}.
End FailedDocument.

(** The object returned by [processDocuments]. *)
Record BatchResult := {
  successful : list ProcessedDocument.t;
  failed : list FailedDocument.t;
  totalProcessed : nat;
  successRate : float
}.

(** Results of the external libraries and services. *)
Record PdfData := {
  pdf_text : jsstring;
  numpages : N;
  info : JsValue;
  version : JsValue
}.

Record WordData := {
  value : jsstring;
  messages : JsValue
}.

Record OcrData := {
  ocr_text : jsstring;
  ocr_confidence : float;
  ocr_pages : list JsValue
}.

Record UploadData := { url : jsstring }.

(** The collaborators of the processor. Each may change the world and may
    throw. [sharp_pipeline] is the whole chain
    [sharp(buffer).resize(..).grayscale().normalize().sharpen().png(..).toBuffer()]. *)
Record Collaborators (World : Type) := {
  pdf : Buffer -> M World PdfData;
  mammoth_extractRawText : Buffer -> M World WordData;
  sharp_pipeline : Buffer -> M World Buffer;
  analyzeDocument : Buffer -> M World OcrData;
  uploadFile : Buffer -> jsstring -> jsstring -> M World UploadData;
  uuidv4 : M World jsstring;
  Date_now : M World Z;
  Date_toISOString : M World jsstring
}.
Arguments pdf {World}.
Arguments mammoth_extractRawText {World}.
Arguments sharp_pipeline {World}.
Arguments analyzeDocument {World}.
Arguments uploadFile {World}.
Arguments uuidv4 {World}.
Arguments Date_now {World}.
Arguments Date_toISOString {World}.

(** ** Supported types *)

Module SUPPORTED_TYPES.
Definition pdf : list jsstring := [js "application/pdf"].
Definition doc : list jsstring :=
  [js "application/msword";
   js "application/vnd.openxmlformats-officedocument.wordprocessingml.document"].
Definition image : list jsstring :=
  [js "image/jpeg"; js "image/jpg"; js "image/png"; js "image/gif"; js "image/bmp"].
Definition text : list jsstring := [js "text/plain"].
(** [Object.values(SUPPORTED_TYPES).flat()]. *)
Definition values_flat : list jsstring := pdf ++ doc ++ image ++ text.
End SUPPORTED_TYPES.

(** ** Utility functions *)

Definition countWords (text : jsstring) : nat :=
  match text with
  | [] => 0%nat
  | _ => length (List.filter (fun word => (0 <? length word)%nat) (split_ws (trim text)))
  end.

Definition enWords : list jsstring :=
  map js ["the"; "and"; "or"; "but"; "in"; "on"; "at"; "to"; "for"; "of"]%string.
Definition esWords : list jsstring :=
  map js ["el"; "la"; "y"; "o"; "pero"; "en"; "un"; "una"; "de"; "que"]%string.
Definition frWords : list jsstring :=
  map js ["le"; "de"; "et"; "ou"; "mais"; "dans"; "sur"; "pour"; "avec"; "ce"]%string.

(** [Object.entries(commonWords)], in insertion order. *)
Definition commonWords : list (jsstring * list jsstring) :=
  [ (js "en", enWords); (js "es", esWords); (js "fr", frWords) ].

(** The score of one language: how many of [words] are in its list. *)
Definition langScore (words langWords : list jsstring) : nat :=
  length (List.filter (fun word => array_includes langWords word) words).

(** One turn of the [forEach]: the state is [(maxScore, detectedLang)]. *)
Definition detectStep (words : list jsstring) (st : nat * jsstring)
    (entry : jsstring * list jsstring) : nat * jsstring :=
  let '(maxScore, detectedLang) := st in
  let '(lang, langWords) := entry in
  let score := langScore words langWords in
  if (maxScore <? score)%nat then (score, lang) else (maxScore, detectedLang).

Definition detectLanguage (text : jsstring) : jsstring :=
  match text with
  | [] => js "unknown"
  | _ =>
      let words := slice0 100 (split_ws (toLowerCase text)) in
      snd (fold_left (detectStep words) commonWords (0%nat, js "en"))
  end.

(** ** Validation *)

Definition maxSize (env : Env) : Z :=
  let parsed :=
    match MAX_FILE_SIZE_MB env with
    | Some s => parseInt s
    | None => None
    end in
  (match parsed with
   | Some 0%Z | None => 50
   | Some mb => mb
   end * 1024 * 1024)%Z.

Definition allowedTypes (env : Env) : list jsstring :=
  match ALLOWED_FILE_TYPES env with
  | Some s => split s 44
  | None => map js ["pdf"; "doc"; "docx"; "txt"; "jpg"; "jpeg"; "png"]%string
  end.

Definition isTypeSupported (mimetype : jsstring) : bool :=
  existsb (fun type => str_eqb mimetype type || startsWith mimetype type)
          SUPPORTED_TYPES.values_flat.

Definition validateFile (env : Env) (file : option File) : ValidationResult :=
  match file with
  | None => {| isValid := false; error := Some (js "No file provided") |}
  | Some file =>
      if (size file >? maxSize env)%Z then
        {| isValid := false;
           error := Some (js "File size too large. Maximum allowed: " ++
                          numberToString (maxSize env / (1024 * 1024)) ++ js "MB") |}
      else if negb (isTypeSupported (mimetype file)) then
        {| isValid := false;
           error := Some (js "Unsupported file type: " ++ mimetype file ++
                          js ". Supported types: " ++
                          join (js ", ") (allowedTypes env)) |}
      else {| isValid := true; error := None |}
  end.

(** ** Extraction and processing *)

Section Processor.

Context {World : Type}.
Variable ext : Collaborators World.
Variable env : Env.

Local Open Scope string_scope.
Local Open Scope list_scope.
Local Open Scope N_scope.
Local Open Scope js_scope.

(** [Math.ceil(text.length / 3000)]. *)
Definition estimatePages (text : jsstring) : N :=
  (N.of_nat (length text) + 2999) / 3000.

(** Fallback PDF extraction using OCR. *)
Definition extractFromPDFWithOCR (buffer : Buffer) : M World ExtractionResult.t :=
  try_catch
    (ret {| ExtractionResult.text := js "";
            ExtractionResult.pages := 0;
            ExtractionResult.confidence := 0%float;
            ExtractionResult.encoding := None;
            ExtractionResult.metadata :=
              {[ "extractionMethod" := JString (js "ocr-fallback") ]} |})
    (fun error => throw {| message := js "PDF processing failed completely" |}).

(** Extract text from PDF. *)
Definition extractFromPDF (buffer : Buffer) : M World ExtractionResult.t :=
  try_catch
    (data <- pdf ext buffer ;;
     ret {| ExtractionResult.text := pdf_text data;
            ExtractionResult.pages := numpages data;
            ExtractionResult.confidence := 0.95%float;
            ExtractionResult.encoding := None;
            ExtractionResult.metadata :=
              <[ "info" := info data ]> {[ "version" := version data ]} |})
    (fun error => extractFromPDFWithOCR buffer).

(** Extract text from Word documents. *)
Definition extractFromWord (buffer : Buffer) : M World ExtractionResult.t :=
  try_catch
    (result <- mammoth_extractRawText ext buffer ;;
     ret {| ExtractionResult.text := value result;
            ExtractionResult.confidence := 0.98%float;
            ExtractionResult.pages := estimatePages (value result);
            ExtractionResult.encoding := None;
            ExtractionResult.metadata :=
              <[ "messages" := messages result ]>
              {[ "extractionMethod" := JString (js "mammoth") ]} |})
    (fun error => throw error).

(** Optimize images for better OCR. *)
Definition optimizeImage (buffer : Buffer) : M World Buffer :=
  try_catch (sharp_pipeline ext buffer) (fun error => ret buffer).

(** Extract text from images using the OCR service. *)
Definition extractFromImage (buffer : Buffer) : M World ExtractionResult.t :=
  try_catch
    (optimizedBuffer <- optimizeImage buffer ;;
     result <- analyzeDocument ext optimizedBuffer ;;
     ret {| ExtractionResult.text := ocr_text result;
            ExtractionResult.confidence := ocr_confidence result;
            ExtractionResult.pages :=
              (let n := N.of_nat (length (ocr_pages result)) in
               if n =? 0 then 1 else n);
            ExtractionResult.encoding := None;
            ExtractionResult.metadata :=
              <[ "extractionMethod" := JString (js "google-vision") ]>
              (<[ "originalSize" := JNumber (Z.of_nat (length buffer)) ]>
               (<[ "optimizedSize" := JNumber (Z.of_nat (length optimizedBuffer)) ]>
                {[ "pages" := JArray (ocr_pages result) ]})) |})
    (fun error => throw error).

(** Extract text from plain text files. *)
Definition extractFromText (buffer : Buffer) : M World ExtractionResult.t :=
  try_catch
    (let text := Buf.toString Buf.Utf8 buffer in
     ret {| ExtractionResult.text := text;
            ExtractionResult.confidence := 1.0%float;
            ExtractionResult.pages := estimatePages text;
            ExtractionResult.encoding := Some (js "UTF-8");
            ExtractionResult.metadata :=
              <[ "extractionMethod" := JString (js "direct") ]>
              {[ "originalEncoding" := JString (js "UTF-8") ]} |})
    (fun error =>
       try_catch
         (let text := Buf.toString Buf.Latin1 buffer in
          ret {| ExtractionResult.text := text;
                 ExtractionResult.confidence := 0.9%float;
                 ExtractionResult.pages := estimatePages text;
                 ExtractionResult.encoding := Some (js "latin1");
                 ExtractionResult.metadata :=
                   <[ "extractionMethod" := JString (js "direct-fallback") ]>
                   {[ "originalEncoding" := JString (js "latin1") ]} |})
         (fun fallbackError => throw error)).

(** The four tests of the dispatcher, on the lower-cased mime type. *)
Definition isPdfType (mimeType : jsstring) : bool :=
  array_includes SUPPORTED_TYPES.pdf mimeType.

Definition isDocType (mimeType : jsstring) : bool :=
  array_includes SUPPORTED_TYPES.doc mimeType.

Definition isImageType (mimeType : jsstring) : bool :=
  existsb (fun type => includes mimeType (nth 1 (split type 47) (js "undefined")))
          SUPPORTED_TYPES.image.

Definition isTextType (mimeType : jsstring) : bool :=
  array_includes SUPPORTED_TYPES.text mimeType.

Definition unsupportedError (mimeType : jsstring) : Error :=
  {| message := js "Unsupported file type: " ++ mimeType |}.

(** Extract text from different file types. *)
Definition extractText (file : File) : M World ExtractionResult.t :=
  let mimeType := toLowerCase (mimetype file) in
  try_catch
    (if isPdfType mimeType then extractFromPDF (buffer file)
     else if isDocType mimeType then extractFromWord (buffer file)
     else if isImageType mimeType then extractFromImage (buffer file)
     else if isTextType mimeType then extractFromText (buffer file)
     else throw (unsupportedError mimeType))
    (fun error => throw error).

(** [a || b] on an optional string: undefined and the empty string are falsy. *)
Definition orString (a : option jsstring) (b : jsstring) : jsstring :=
  match a with
  | Some (c :: s) => c :: s
  | _ => b
  end.

(** Main document processing function. The [options] argument is unused. *)
Definition processDocument (file : File) : M World ProcessedDocument.t :=
  documentId <- uuidv4 ext ;;
  startTime <- Date_now ext ;;
  try_catch
    (let validation := validateFile env (Some file) in
     _ <- (if negb (isValid validation)
           then throw {| message := default (js "undefined") (error validation) |}
           else ret tt) ;;
     extractionResult <- extractText file ;;
     uploadResult <- uploadFile ext (buffer file) (originalname file) (mimetype file) ;;
     now <- Date_now ext ;;
     let processingTime := (now - startTime)%Z in
     createdAt <- Date_toISOString ext ;;
     ret {| ProcessedDocument.documentId := documentId;
            ProcessedDocument.originalName := originalname file;
            ProcessedDocument.mimeType := mimetype file;
            ProcessedDocument.size := size file;
            ProcessedDocument.uploadUrl := url uploadResult;
            ProcessedDocument.extractedText := ExtractionResult.text extractionResult;
            ProcessedDocument.confidence := ExtractionResult.confidence extractionResult;
            ProcessedDocument.pages :=
              (if ExtractionResult.pages extractionResult =? 0 then 1
               else ExtractionResult.pages extractionResult);
            ProcessedDocument.wordCount := countWords (ExtractionResult.text extractionResult);
            ProcessedDocument.processingTime := processingTime;
            ProcessedDocument.metadata :=
              ExtractionResult.metadata extractionResult ∪
              (<[ "language" := JString (detectLanguage (ExtractionResult.text extractionResult)) ]>
               (<[ "encoding" := JString (orString (ExtractionResult.encoding extractionResult) (js "UTF-8")) ]>
                {[ "createdAt" := JString createdAt ]})) |})
    (fun error =>
       throw {| message := js "Document processing failed: " ++ message error |}).

(** The loop of the batch: [results] and [errors] are the two arrays. *)
Fixpoint processLoop (files : list File)
    (results : list ProcessedDocument.t) (errors : list FailedDocument.t)
    : M World (list ProcessedDocument.t * list FailedDocument.t) :=
  match files with
  | [] => ret (results, errors)
  | file :: rest =>
      acc <- try_catch
               (result <- processDocument file ;;
                ret (results ++ [result], errors))
               (fun error =>
                  ret (results,
                       errors ++ [ {| FailedDocument.fileName := originalname file;
                                      FailedDocument.error := message error |} ])) ;;
      processLoop rest (fst acc) (snd acc)
  end.

(** Batch processing for multiple documents. *)
Definition processDocuments (files : list File) : M World BatchResult :=
  acc <- processLoop files [] [] ;;
  let results := fst acc in
  let errors := snd acc in
  ret {| successful := results;
         failed := errors;
         totalProcessed := length files;
         successRate :=
           (Number_of_nat (length results) / Number_of_nat (length files) * 100)%float |}.

End Processor.

(** ** Specification-level definitions *)

(** The job-by-job run of a batch: every file is handed to
    [processDocument] in the world left by the previous one, whatever that
    one's outcome. *)
Fixpoint attempts {World} (ext : Collaborators World) (env : Env)
    (files : list File) (w : World)
    : list (File * Result ProcessedDocument.t) * World :=
  match files with
  | [] => ([], w)
  | file :: rest =>
      let '(r, w1) := processDocument ext env file w in
      let '(rs, w2) := attempts ext env rest w1 in
      ((file, r) :: rs, w2)
  end.

(** The documents of the jobs that returned, in order. *)
Fixpoint successes (run : list (File * Result ProcessedDocument.t))
    : list ProcessedDocument.t :=
  match run with
  | [] => []
  | (_, Ok doc) :: rest => doc :: successes rest
  | (_, Throw _) :: rest => successes rest
  end.

(** The error entries of the jobs that threw, in order. *)
Fixpoint failures (run : list (File * Result ProcessedDocument.t))
    : list FailedDocument.t :=
  match run with
  | [] => []
  | (_, Ok _) :: rest => failures rest
  | (file, Throw e) :: rest =>
      {| FailedDocument.fileName := originalname file;
         FailedDocument.error := message e |} :: failures rest
  end.

(** How many jobs of a run threw. *)
Definition failureCount (run : list (File * Result ProcessedDocument.t)) : nat :=
  length (List.filter (fun o => negb (is_ok (snd o))) run).

(** [x] is within [tol] of [y]. *)
Definition approx (x y tol : float) : bool :=
  PrimFloat.ltb (PrimFloat.abs (x - y)) tol.

(** The word count as the specification words it: split on white space
    (every white-space code unit ends a token), drop the empty tokens,
    count. *)
Fixpoint spec_tokens (cur s : jsstring) : list jsstring :=
  match s with
  | [] => [cur]
  | c :: s' =>
      if isWhiteSpace c then cur :: spec_tokens [] s'
      else spec_tokens (cur ++ [c]) s'
  end.

Definition nonEmpty (word : jsstring) : bool := (0 <? length word)%nat.

Definition spec_wordCount (text : jsstring) : nat :=
  length (List.filter nonEmpty (spec_tokens [] text)).

(** The tokens that the language heuristic scores. *)
Definition scoredWords (text : jsstring) : list jsstring :=
  slice0 100 (split_ws (toLowerCase text)).

(** ** A concrete environment

    A small deterministic instance of the collaborators, used to run the
    processor on concrete files. The world is a counter that serves as the
    clock and as the source of document ids. *)

Module Scenario.

Definition World := Z.

Definition tick : M World Z := fun w => (Ok w, (w + 1)%Z).

(** A PDF parses when it starts with the bytes of "%PDF"; its text is the
    rest of the file. *)
Definition parsePdf (buffer : Buffer) : M World PdfData :=
  match buffer with
  | x25 :: x50 :: x44 :: x46 :: body =>
      ret {| pdf_text := Buf.toString Buf.Latin1 body;
             numpages := 1;
             info := JObject [];
             version := JString (js "1.10.100") |}
  | _ => throw {| message := js "Invalid PDF structure" |}
  end.

Definition rawText (buffer : Buffer) : M World WordData :=
  ret {| value := Buf.toString Buf.Latin1 buffer; messages := JArray [] |}.

(** The image library rejects an empty input and otherwise returns its
    input. *)
Definition optimize (buffer : Buffer) : M World Buffer :=
  match buffer with
  | [] => throw {| message := js "Input buffer is empty" |}
  | _ => ret buffer
  end.

Definition recognize (buffer : Buffer) : M World OcrData :=
  ret {| ocr_text := Buf.toString Buf.Latin1 buffer;
         ocr_confidence := 0.5%float;
         ocr_pages := [JObject []] |}.

Definition upload (buffer : Buffer) (name mime : jsstring) : M World UploadData :=
  ret {| url := js "gs://documents/" ++ name |}.

Definition collaborators : Collaborators World :=
  {| pdf := parsePdf;
     mammoth_extractRawText := rawText;
     sharp_pipeline := optimize;
     analyzeDocument := recognize;
     uploadFile := upload;
     uuidv4 := bind tick (fun n => ret (js "doc-" ++ numberToString n));
     Date_now := tick;
     Date_toISOString := ret (js "2024-01-01T00:00:00.000Z") |}.

(** No environment variable is set. *)
Definition env : Env := {| MAX_FILE_SIZE_MB := None; ALLOWED_FILE_TYPES := None |}.

Definition bytes (s : string) : Buffer := list_byte_of_string s.

Definition textFile (name body : string) : File :=
  {| originalname := js name; mimetype := js "text/plain";
     size := Z.of_nat (String.length body); buffer := bytes body |}.

(** A plain-text upload whose declared type carries a parameter. *)
Definition charsetFile : File :=
  {| originalname := js "notes.txt"; mimetype := js "text/plain; charset=utf-8";
     size := 5; buffer := bytes "hello" |}.

(** An archive: its type is not registered. *)
Definition zipFile : File :=
  {| originalname := js "bundle.zip"; mimetype := js "application/zip";
     size := 4; buffer := bytes "PK34" |}.

(** A PDF that the parser rejects. *)
Definition brokenPdf : File :=
  {| originalname := js "scan.pdf"; mimetype := js "application/pdf";
     size := 4; buffer := bytes "oops" |}.

(** A plain-text upload that is not valid UTF-8: the single byte 0xFF. *)
Definition invalidUtf8File : File :=
  {| originalname := js "legacy.txt"; mimetype := js "text/plain";
     size := 1; buffer := [xff] |}.

End Scenario.

(** ** The voice routes (routes/voice.js) *)

Module Voice.

(** The list of the upload filter. *)
Definition allowedTypes : list jsstring :=
  [js "audio/webm"; js "audio/mp4"; js "audio/wav"; js "audio/mpeg";
   js "audio/ogg"; js "audio/x-wav"].

(** The filter of the audio upload. [cb(null, true)] is [Ok true] and
    [cb(error)] is [Throw error]. *)
Definition fileFilter (file : File) : Result bool :=
  if array_includes allowedTypes (mimetype file) ||
     startsWith (mimetype file) (js "audio/")
  then Ok true
  else Throw {| message := js "Unsupported audio type: " ++ mimetype file |}.

(** An error reaching the error-handling middleware: one of the upload
    library, with its code, or any other. *)
Inductive UploadError :=
| MulterError (code : jsstring) (msg : jsstring)
| OtherError (e : Error).

Definition errorMessage (err : UploadError) : jsstring :=
  match err with
  | MulterError _ msg => msg
  | OtherError e => message e
  end.

(** The bodies of the two answers of the middleware. *)
Record ErrorBody := {
  body_error : jsstring;
  body_message : jsstring;
  supportedFormats : option (list jsstring)
}.

Inductive Handled :=
| Respond (statusCode : N) (body : ErrorBody)
| Next (err : UploadError).

(** Error handling middleware for audio uploads. *)
Definition errorMiddleware (err : UploadError) : Handled :=
  match err with
  | MulterError code _ =>
      if str_eqb code (js "LIMIT_FILE_SIZE") then
        Respond 400 {| body_error := js "Audio file too large";
                       body_message := js "Audio file size should not exceed 10MB";
                       supportedFormats := None |}
      else if includes (errorMessage err) (js "Unsupported audio type") then
        Respond 400 {| body_error := js "Unsupported audio format";
                       body_message := errorMessage err;
                       supportedFormats :=
                         Some [js "audio/webm"; js "audio/wav"; js "audio/mp4";
                               js "audio/mpeg"; js "audio/ogg"] |}
      else Next err
  | OtherError _ =>
      if includes (errorMessage err) (js "Unsupported audio type") then
        Respond 400 {| body_error := js "Unsupported audio format";
                       body_message := errorMessage err;
                       supportedFormats :=
                         Some [js "audio/webm"; js "audio/wav"; js "audio/mp4";
                               js "audio/mpeg"; js "audio/ogg"] |}
      else Next err
  end.

(** An exchange of a conversation, as the voice service keeps it. *)
Record Exchange := {
  timestamp : JsValue;
  query : JsValue;
  response : JsValue;
  confidence : JsValue
}.

Record HistoryEntry := {
  index : nat;
  entry_timestamp : JsValue;
  entry_query : JsValue;
  entry_response : JsValue;
  entry_confidence : JsValue
}.

Record HistoryData := {
  sessionId : jsstring;
  totalExchanges : nat;
  history : list HistoryEntry
}.

Inductive HistoryResponse :=
| HistoryOk (statusCode : N) (success : bool) (data : HistoryData)
| HistoryError (statusCode : N) (error msg : jsstring).

(** GET /:sessionId/history. [getConversationHistory] is the method of the
    voice service; the answer is what is passed to [res]. *)
Definition getHistory {World}
    (getConversationHistory : jsstring -> M World (list Exchange))
    (sessionId : jsstring) : M World HistoryResponse :=
  try_catch
    (bind (getConversationHistory sessionId) (fun history =>
     ret (HistoryOk 200 true
            {| Voice.sessionId := sessionId;
               totalExchanges := length history;
               Voice.history :=
                 imap (fun index exchange =>
                         {| Voice.index := index + 1;
                            entry_timestamp := timestamp exchange;
                            entry_query := query exchange;
                            entry_response := response exchange;
                            entry_confidence := confidence exchange |})
                      history |})))
    (fun error =>
       ret (HistoryError 500 (js "Failed to retrieve history") (message error))).

End Voice.

(** ** The document list of the chat page (pages/DocumentChat.tsx) *)

Module Chat.





End Chat.

(** ** A concrete environment whose blob store is down *)

Module StorageDown.

Definition upload (buffer : Buffer) (name mime : jsstring) : M Scenario.World UploadData :=
  throw {| message := js "Storage unavailable" |}.

Definition collaborators : Collaborators Scenario.World :=
  {| pdf := Scenario.parsePdf;
     mammoth_extractRawText := Scenario.rawText;
     sharp_pipeline := Scenario.optimize;
     analyzeDocument := Scenario.recognize;
     uploadFile := upload;
     uuidv4 := uuidv4 Scenario.collaborators;
     Date_now := Scenario.tick;
     Date_toISOString := Date_toISOString Scenario.collaborators |}.

End StorageDown.

(** * Properties *)

(** ** The string and buffer primitives on examples *)

Example split_ws_leading_trailing :
  split_ws (js " a  b ") = [js ""; js "a"; js "b"; js ""].
Proof. reflexivity. Qed.

Example split_ws_empty : split_ws (js "") = [js ""].
Proof. reflexivity. Qed.

Example trim_example : trim (js "  a b  ") = js "a b".
Proof. reflexivity. Qed.

Example split_subtype :
  nth 1 (split (js "image/jpeg") 47) (js "undefined") = js "jpeg".
Proof. reflexivity. Qed.

Example parseInt_examples :
  parseInt (js " 25MB") = Some 25%Z /\ parseInt (js "0x1f") = Some 31%Z /\
  parseInt (js "-5") = Some (-5)%Z /\ parseInt (js "abc") = None /\
  parseInt (js "") = None.
Proof. repeat split; reflexivity. Qed.

Example numberToString_examples :
  numberToString 50 = js "50" /\ numberToString (-5) = js "-5".
Proof. split; reflexivity. Qed.

Example toString_utf8_valid :
  Buf.toString Buf.Utf8 [x68; xc3; xa9; xe2; x82; xac; xf0; x9f; x98; x80] =
  [104; 233; 8364; 55357; 56832].
Proof. reflexivity. Qed.

Example toString_utf8_invalid :
  Buf.toString Buf.Utf8 [xe2; x82; x41] = [65533; 65] /\
  Buf.toString Buf.Utf8 [xc0; x80] = [65533; 65533] /\
  Buf.toString Buf.Utf8 [xff] = [65533].
Proof. repeat split; reflexivity. Qed.

Example toString_latin1 : Buf.toString Buf.Latin1 [xff; x41] = [255; 65].
Proof. reflexivity. Qed.

Example maxSize_default : maxSize Scenario.env = 52428800%Z.
Proof. reflexivity. Qed.

Example maxSize_configured :
  maxSize {| MAX_FILE_SIZE_MB := Some (js "10"); ALLOWED_FILE_TYPES := None |} = 10485760%Z /\
  maxSize {| MAX_FILE_SIZE_MB := Some (js "0"); ALLOWED_FILE_TYPES := None |} = 52428800%Z /\
  maxSize {| MAX_FILE_SIZE_MB := Some (js "big"); ALLOWED_FILE_TYPES := None |} = 52428800%Z.
Proof. repeat split; reflexivity. Qed.

(** ** Batch processing *)

Section BatchProperties.

Context {World : Type}.
Variable ext : Collaborators World.
Variable env : Env.

Lemma attempts_length files w :
  length (fst (attempts ext env files w)) = length files.
Proof.
  revert w. induction files as [|file rest IH]; intros w; simpl; [reflexivity|].
  destruct (processDocument ext env file w) as [r w1].
  specialize (IH w1). destruct (attempts ext env rest w1) as [rs w2].
  simpl in *. now rewrite IH.
Qed.

(** Every job of a run is either among the successes or among the failures. *)
Lemma successes_failures_length run :
  (length (successes run) + length (failures run))%nat = length run.
Proof.
  induction run as [|[file [doc|e]] rest IH]; simpl; lia.
Qed.

Lemma failures_length run : length (failures run) = failureCount run.
Proof.
  unfold failureCount.
  induction run as [|[file [doc|e]] rest IH]; simpl; auto.
Qed.

(** The run of a batch is the run of its first part followed by the run of
    the rest, started in the world that the first part left. *)
Lemma attempts_app files1 files2 w :
  attempts ext env (files1 ++ files2) w =
  (fst (attempts ext env files1 w) ++
   fst (attempts ext env files2 (snd (attempts ext env files1 w))),
   snd (attempts ext env files2 (snd (attempts ext env files1 w)))).
Proof.
  revert w. induction files1 as [|file rest IH]; intros w; simpl.
  - now destruct (attempts ext env files2 w).
  - destruct (processDocument ext env file w) as [r w1].
    rewrite IH. destruct (attempts ext env rest w1) as [rs w2]. reflexivity.
Qed.

(** The loop never throws: it appends, job by job, the successes of the run
    to [results] and its failures to [errors]. *)
Lemma processLoop_attempts files : forall results errors w,
  processLoop ext env files results errors w =
  (Ok (results ++ successes (fst (attempts ext env files w)),
       errors ++ failures (fst (attempts ext env files w))),
   snd (attempts ext env files w)).
Proof.
  induction files as [|file rest IH]; intros results errors w; simpl.
  - unfold ret. now rewrite !app_nil_r.
  - unfold bind at 1, try_catch, bind at 1.
    destruct (processDocument ext env file w) as [[doc|e] w1]; simpl;
      rewrite IH; destruct (attempts ext env rest w1) as [rs w2]; simpl;
      now rewrite <- app_assoc.
Qed.

Lemma processDocuments_attempts files w :
  processDocuments ext env files w =
  (Ok {| successful := successes (fst (attempts ext env files w));
         failed := failures (fst (attempts ext env files w));
         totalProcessed := length files;
         successRate :=
           (Number_of_nat (length (successes (fst (attempts ext env files w)))) /
            Number_of_nat (length files) * 100)%float |},
   snd (attempts ext env files w)).
Proof.
  unfold processDocuments, bind. rewrite processLoop_attempts. reflexivity.
Qed.

(** The accounting of a batch: the total is the number of files submitted,
    it is the sum of the two lists' lengths, and the rate is the quotient
    that the source computes. *)
Lemma processDocuments_accounting files w :
  exists r w',
    processDocuments ext env files w = (Ok r, w') /\
    totalProcessed r = length files /\
    totalProcessed r = (length (successful r) + length (failed r))%nat /\
    successRate r =
      (Number_of_nat (length (successful r)) / Number_of_nat (totalProcessed r) * 100)%float.
Proof.
  rewrite processDocuments_attempts. eexists; eexists; split; [reflexivity|].
  simpl. rewrite successes_failures_length, attempts_length. auto.
Qed.

Lemma attempts_files files w :
  map fst (fst (attempts ext env files w)) = files.
Proof.
  revert w. induction files as [|file rest IH]; intros w; simpl; [reflexivity|].
  destruct (processDocument ext env file w) as [r w1].
  specialize (IH w1). destruct (attempts ext env rest w1) as [rs w2].
  simpl in *. now rewrite IH.
Qed.

End BatchProperties.

(** C1, at the input where the code departs from it. For an empty batch
    [processDocuments] returns a result whose [successRate] is the quotient
    0/0 times 100, which is NaN and not 0; the total and the two lists are
    as the claim says. *)
Theorem processDocuments_empty_successRate_nan
    {World} (ext : Collaborators World) (env : Env) (w : World) :
  processDocuments ext env [] w =
    (Ok {| successful := []; failed := []; totalProcessed := 0; successRate := nan |}, w)
  /\ PrimFloat.is_nan nan = true
  /\ PrimFloat.eqb nan 0 = false.
Proof.
  split; [|split]; reflexivity.
Qed.

(** C4. Every submitted job gives exactly one entry of the result: the
    batch never throws, its [successful] list holds the documents of the
    jobs that returned and its [failed] list one [{fileName, error}] entry
    per job that threw, in submission order. A job's outcome, failure
    included, does not stop or change the run of the jobs around it: each
    job is handed to [processDocument] in the world left by the job before
    it, and the jobs after it are run just the same. With three jobs of
    which exactly one fails, the result has two successes, one failure, a
    total of three and a success rate within 0.005 of 66.67. *)
Theorem processDocuments_isolates_jobs
    {World} (ext : Collaborators World) (env : Env) (files : list File) (w : World) :
  let run := fst (attempts ext env files w) in
  exists r w',
    processDocuments ext env files w = (Ok r, w') /\
    map fst run = files /\
    successful r = successes run /\
    failed r = failures run /\
    (length (successful r) + length (failed r))%nat = length files /\
    (forall pre file post, files = pre ++ file :: post ->
       let w1 := snd (attempts ext env pre w) in
       run = fst (attempts ext env pre w) ++
             (file, fst (processDocument ext env file w1)) ::
             fst (attempts ext env post (snd (processDocument ext env file w1)))) /\
    (length files = 3%nat -> failureCount run = 1%nat ->
       length (successful r) = 2%nat /\ length (failed r) = 1%nat /\
       totalProcessed r = 3%nat /\ approx (successRate r) 66.67 0.005 = true).
Proof.
  intros run. rewrite processDocuments_attempts. fold run.
  eexists; eexists; split; [reflexivity|]. simpl.
  assert (Hsum : (length (successes run) + length (failures run))%nat = length files).
  { subst run. now rewrite successes_failures_length, attempts_length. }
  split; [apply attempts_files|].
  split; [reflexivity|]. split; [reflexivity|]. split; [exact Hsum|]. split.
  - intros pre file post ->. subst run. rewrite attempts_app. simpl.
    destruct (processDocument ext env file (snd (attempts ext env pre w))) as [o w2].
    simpl. now destruct (attempts ext env post w2).
  - intros Hthree Hone. rewrite <- failures_length in Hone.
    assert (Htwo : length (successes run) = 2%nat) by lia.
    rewrite Htwo, Hone, Hthree. now repeat split.
Qed.

(** A batch of three with one unregistered type: two documents, one error. *)
Lemma processDocuments_isolates_jobs_witness :
  exists r,
    fst (processDocuments Scenario.collaborators Scenario.env
           [Scenario.textFile "a.txt" "hello world"; Scenario.zipFile;
            Scenario.textFile "b.txt" "second file"] 0%Z) = Ok r /\
    length (successful r) = 2%nat /\ length (failed r) = 1%nat /\
    totalProcessed r = 3%nat /\ approx (successRate r) 66.67 0.005 = true.
Proof.
  destruct (processDocuments_isolates_jobs Scenario.collaborators Scenario.env
              [Scenario.textFile "a.txt" "hello world"; Scenario.zipFile;
               Scenario.textFile "b.txt" "second file"] 0%Z)
    as (r & w' & Hrun & _ & _ & _ & _ & _ & Hthree).
  exists r. rewrite Hrun. split; [reflexivity|].
  apply Hthree; vm_compute; reflexivity.
Defined.

(** ** String helpers *)

Lemma startsWith_app (p rest : jsstring) : startsWith (p ++ rest) p = true.
Proof.
  induction p as [|c p IH]; simpl; [reflexivity|].
  now rewrite N.eqb_refl, IH.
Qed.

Lemma startsWith_spec (s p : jsstring) :
  startsWith s p = true <-> exists rest, s = p ++ rest.
Proof.
  split.
  - revert s. induction p as [|c p IH]; intros s H.
    + now exists s.
    + destruct s as [|d s]; simpl in H; [discriminate|].
      apply andb_true_iff in H as [Hc Hp]. apply N.eqb_eq in Hc. subst d.
      destruct (IH _ Hp) as [rest ->]. now exists rest.
  - intros [rest ->]. apply startsWith_app.
Qed.

Lemma str_eqb_eq (a b : jsstring) : str_eqb a b = true <-> a = b.
Proof. unfold str_eqb. apply bool_decide_eq_true. Qed.

Lemma array_includes_In (arr : list jsstring) (x : jsstring) :
  array_includes arr x = true <-> In x arr.
Proof.
  unfold array_includes. rewrite existsb_exists. split.
  - intros (y & Hy & Heq). apply str_eqb_eq in Heq. now subst.
  - intros H. exists x. split; [assumption|]. now apply str_eqb_eq.
Qed.

(** ** Validation *)

(** The type check accepts exactly the types that extend an entry of the
    table (an exact match is the extension by nothing). *)
Lemma isTypeSupported_spec (m : jsstring) :
  isTypeSupported m = true <->
  exists type rest, In type SUPPORTED_TYPES.values_flat /\ m = type ++ rest.
Proof.
  unfold isTypeSupported. rewrite existsb_exists. split.
  - intros (type & Hin & H). apply orb_true_iff in H as [H|H].
    + apply str_eqb_eq in H. exists type, []. now rewrite app_nil_r.
    + apply startsWith_spec in H as [rest ->]. now exists type, rest.
  - intros (type & rest & Hin & ->). exists type. split; [assumption|].
    rewrite startsWith_app. apply orb_true_r.
Qed.

(** C7. Validation checks, in this order, that a file is present, that its
    size does not exceed the limit (50 MB when no limit is configured), and
    that its declared type extends an entry of the table of supported types;
    the first failing check decides the reason. It is a function of the
    configuration and the file alone. So a file over the limit is rejected
    whatever its type, and a file whose type matches no entry is rejected. *)
Theorem validateFile_checks_in_order (env : Env) (file : File) :
  validateFile env None =
    {| isValid := false; error := Some (js "No file provided") |} /\
  (MAX_FILE_SIZE_MB env = None -> maxSize env = (50 * 1024 * 1024)%Z) /\
  ((size file > maxSize env)%Z ->
     validateFile env (Some file) =
       {| isValid := false;
          error := Some (js "File size too large. Maximum allowed: " ++
                         numberToString (maxSize env / (1024 * 1024)) ++ js "MB") |}) /\
  ((size file <= maxSize env)%Z ->
   (forall type rest, In type SUPPORTED_TYPES.values_flat -> mimetype file <> type ++ rest) ->
     validateFile env (Some file) =
       {| isValid := false;
          error := Some (js "Unsupported file type: " ++ mimetype file ++
                         js ". Supported types: " ++
                         join (js ", ") (allowedTypes env)) |}) /\
  ((size file <= maxSize env)%Z ->
   (exists type rest, In type SUPPORTED_TYPES.values_flat /\ mimetype file = type ++ rest) ->
     validateFile env (Some file) = {| isValid := true; error := None |}) /\
  (isValid (validateFile env (Some file)) = true <->
     (size file <= maxSize env)%Z /\ isTypeSupported (mimetype file) = true).
Proof.
  split; [reflexivity|].
  split; [intros H; unfold maxSize; now rewrite H|].
  unfold validateFile.
  destruct (Z.gtb_spec (size file) (maxSize env)) as [Hgt|Hle].
  - split; [reflexivity|]. split; [intros; lia|]. split; [intros; lia|].
    simpl. split; [discriminate | intros [? _]; lia].
  - split; [intros; lia|].
    destruct (isTypeSupported (mimetype file)) eqn:Hsup; simpl.
    + split; [|split; [intros; reflexivity | split; [now split | reflexivity]]].
      intros _ Hno. apply isTypeSupported_spec in Hsup as (type & rest & Hin & Heq).
      now destruct (Hno type rest Hin).
    + split; [intros; reflexivity|]. split.
      * intros _ Hex. apply isTypeSupported_spec in Hex. congruence.
      * split; [discriminate | intros [_ ?]; discriminate].
Qed.

(** An oversized PDF and an archive are both rejected; a small text file
    passes. *)
Lemma validateFile_checks_in_order_witness :
  isValid (validateFile Scenario.env
             (Some {| originalname := js "big.pdf"; mimetype := js "application/pdf";
                      size := 52428801; buffer := [] |})) = false /\
  isValid (validateFile Scenario.env (Some Scenario.zipFile)) = false /\
  isValid (validateFile Scenario.env (Some (Scenario.textFile "a.txt" "hello"))) = true.
Proof.
  split; [|split].
  - destruct (validateFile_checks_in_order Scenario.env
                {| originalname := js "big.pdf"; mimetype := js "application/pdf";
                   size := 52428801; buffer := [] |})
      as (_ & _ & Hbig & _).
    rewrite Hbig; [reflexivity | vm_compute; reflexivity].
  - destruct (validateFile_checks_in_order Scenario.env Scenario.zipFile)
      as (_ & _ & _ & Hzip & _).
    rewrite Hzip; [reflexivity | vm_compute; discriminate |].
    intros type rest Hin.
    repeat (destruct Hin as [<-|Hin]; [discriminate|]). destruct Hin.
  - destruct (validateFile_checks_in_order Scenario.env (Scenario.textFile "a.txt" "hello"))
      as (_ & _ & _ & _ & Hok & _).
    rewrite Hok; [reflexivity | vm_compute; discriminate |].
    exists (js "text/plain"), []. split; [|reflexivity].
    vm_compute. tauto.
Defined.

(** ** Classification *)

Lemma includes_unfold (s sub : jsstring) :
  includes s sub =
  startsWith s sub || match s with [] => false | _ :: s' => includes s' sub end.
Proof. destruct s; reflexivity. Qed.

Lemma includes_app (a sub b : jsstring) : includes (a ++ sub ++ b) sub = true.
Proof.
  induction a as [|c a IH]; simpl app.
  - rewrite includes_unfold, startsWith_app. reflexivity.
  - rewrite includes_unfold, IH. apply orb_true_r.
Qed.

Lemma toLowerCase_app (a b : jsstring) :
  toLowerCase (a ++ b) = toLowerCase a ++ toLowerCase b.
Proof. apply map_app. Qed.

(** The entries of the table are in lower case. *)
Lemma toLowerCase_supported (type : jsstring) :
  In type SUPPORTED_TYPES.values_flat -> toLowerCase type = type.
Proof.
  intros Hin. repeat (destruct Hin as [<-|Hin]; [reflexivity|]). destruct Hin.
Qed.

(** A type equal to an entry of the table passes one of the four tests. *)
Lemma dispatch_exact (type : jsstring) :
  In type SUPPORTED_TYPES.values_flat ->
  isPdfType type || isDocType type || isImageType type || isTextType type = true.
Proof.
  intros Hin. repeat (destruct Hin as [<-|Hin]; [reflexivity|]). destruct Hin.
Qed.

(** A type that extends an image entry passes the image test: the subtype
    of the entry still occurs in it. *)
Lemma dispatch_image_prefix (type rest : jsstring) :
  In type SUPPORTED_TYPES.image ->
  isImageType (toLowerCase (type ++ rest)) = true.
Proof.
  intros Hin. unfold isImageType. apply existsb_exists. exists type.
  split; [assumption|]. rewrite toLowerCase_app.
  repeat (destruct Hin as [<-|Hin];
          [match goal with
           | |- includes _ ?sub = true =>
               let subtype := eval vm_compute in sub in
               exact (includes_app (js "image/") subtype (toLowerCase rest))
           end|]).
  destruct Hin.
Qed.

(** X21. A job that passes validation is classified by the dispatcher
    (PDF, then Word, then image, then plain text, first match wins)
    whenever its declared type equals an entry of the table or extends an
    image entry; the dispatcher then runs the extractor of that category,
    not its unsupported-type branch. *)
Theorem extractText_classifies_validated
    (env : Env) (file : File) :
  isValid (validateFile env (Some file)) = true ->
  (In (mimetype file) SUPPORTED_TYPES.values_flat \/
   exists type rest, In type SUPPORTED_TYPES.image /\ mimetype file = type ++ rest) ->
  let mimeType := toLowerCase (mimetype file) in
  isPdfType mimeType || isDocType mimeType || isImageType mimeType || isTextType mimeType = true /\
  forall World (ext : Collaborators World),
    extractText ext file =
      try_catch
        (if isPdfType mimeType then extractFromPDF ext (buffer file)
         else if isDocType mimeType then extractFromWord ext (buffer file)
         else if isImageType mimeType then extractFromImage ext (buffer file)
         else extractFromText (buffer file))
        (fun error => throw error).
Proof.
  intros _ Hmatch mimeType.
  assert (Hsome : isPdfType mimeType || isDocType mimeType ||
                  isImageType mimeType || isTextType mimeType = true).
  { subst mimeType. destruct Hmatch as [Hin | (type & rest & Hin & ->)].
    - rewrite (toLowerCase_supported _ Hin). now apply dispatch_exact.
    - rewrite (dispatch_image_prefix _ rest Hin).
      now rewrite orb_true_r. }
  split; [assumption|]. intros World ext. unfold extractText. fold mimeType.
  destruct (isPdfType mimeType); [reflexivity|].
  destruct (isDocType mimeType); [reflexivity|].
  destruct (isImageType mimeType); [reflexivity|].
  simpl in Hsome. now rewrite Hsome.
Qed.

(** A plain-text file declared as text/plain goes to the text extractor. *)
Lemma extractText_classifies_validated_witness :
  isTextType (toLowerCase (mimetype (Scenario.textFile "a.txt" "hello"))) = true /\
  extractText Scenario.collaborators (Scenario.textFile "a.txt" "hello") =
    try_catch (extractFromText (Scenario.bytes "hello"))
              (fun error => throw error).
Proof.
  destruct (extractText_classifies_validated Scenario.env (Scenario.textFile "a.txt" "hello"))
    as [_ Hrun].
  - reflexivity.
  - left. vm_compute. tauto.
  - split; [reflexivity|]. rewrite Hrun. reflexivity.
Defined.

(** C2, at an input where the code departs from it. The type
    "text/plain; charset=utf-8" passes validation, which accepts it by
    prefix match, yet none of the dispatcher's four tests accepts it and
    [extractText] throws its unsupported-type error: the branch that the
    claim calls unreachable is taken. *)
Lemma extractText_unsupported_after_validation :
  isValid (validateFile Scenario.env (Some Scenario.charsetFile)) = true /\
  (let mimeType := toLowerCase (mimetype Scenario.charsetFile) in
   isPdfType mimeType || isDocType mimeType || isImageType mimeType || isTextType mimeType = false) /\
  extractText Scenario.collaborators Scenario.charsetFile 0%Z =
    (Throw {| message := js "Unsupported file type: text/plain; charset=utf-8" |}, 0%Z).
Proof.
  split; [|split]; reflexivity.
Qed.

(** ** Extraction *)

Section ExtractionProperties.

Context {World : Type}.
Variable ext : Collaborators World.
Variable env : Env.

(** Rethrowing in the handler changes nothing. *)
Lemma try_catch_rethrow {A} (m : M World A) (w : World) :
  try_catch m (fun error => throw error) w = m w.
Proof.
  unfold try_catch, throw. now destruct (m w) as [[a|e] w'].
Qed.

Lemma optimizeImage_Ok (buffer : Buffer) (w : World) :
  optimizeImage ext buffer w =
  match sharp_pipeline ext buffer w with
  | (Ok optimized, w1) => (Ok optimized, w1)
  | (Throw _, w1) => (Ok buffer, w1)
  end.
Proof. reflexivity. Qed.

(** What a job that returned was assembled from: the file passed
    validation, and text, pages and word count come from the extraction
    result of the dispatcher. *)
Lemma processDocument_Ok_inv (file : File) (w w' : World) (doc : ProcessedDocument.t) :
  processDocument ext env file w = (Ok doc, w') ->
  isValid (validateFile env (Some file)) = true /\
  exists wa er wb,
    extractText ext file wa = (Ok er, wb) /\
    ProcessedDocument.extractedText doc = ExtractionResult.text er /\
    ProcessedDocument.confidence doc = ExtractionResult.confidence er /\
    ProcessedDocument.pages doc =
      (if ExtractionResult.pages er =? 0 then 1 else ExtractionResult.pages er)%N /\
    ProcessedDocument.wordCount doc = countWords (ExtractionResult.text er).
Proof.
  unfold processDocument, bind at 1.
  destruct (uuidv4 ext w) as [[documentId|e] w0]; [|discriminate].
  unfold bind at 1.
  destruct (Date_now ext w0) as [[startTime|e] w1]; [|discriminate].
  unfold try_catch, bind at 1.
  destruct (isValid (validateFile env (Some file))); simpl; [|discriminate].
  unfold bind at 1.
  destruct (extractText ext file w1) as [[er|e] w2] eqn:Her; [|discriminate].
  unfold bind at 1.
  destruct (uploadFile ext (buffer file) (originalname file) (mimetype file) w2)
    as [[uploadResult|e] w3]; [|discriminate].
  unfold bind at 1.
  destruct (Date_now ext w3) as [[now|e] w4]; [|discriminate].
  unfold bind at 1.
  destruct (Date_toISOString ext w4) as [[createdAt|e] w5]; [|discriminate].
  unfold ret. intros [= <- <-]. split; [reflexivity|].
  exists w1, er, w2. simpl. auto.
Qed.

(** The dispatcher runs the image extraction for a type that passes the
    image test and neither of the two tests before it. *)
Lemma extractText_image (file : File) (w : World) :
  isPdfType (toLowerCase (mimetype file)) = false ->
  isDocType (toLowerCase (mimetype file)) = false ->
  isImageType (toLowerCase (mimetype file)) = true ->
  extractText ext file w = extractFromImage ext (buffer file) w.
Proof.
  intros Hpdf Hdoc Himg. unfold extractText.
  rewrite Hpdf, Hdoc, Himg. apply try_catch_rethrow.
Qed.

(** The image extraction is the preprocessor followed by the OCR call. *)
Lemma extractFromImage_run (buf : Buffer) (w : World) :
  extractFromImage ext buf w =
  match optimizeImage ext buf w with
  | (Ok optimized, w1) =>
      match analyzeDocument ext optimized w1 with
      | (Ok result, w2) =>
          (Ok {| ExtractionResult.text := ocr_text result;
                 ExtractionResult.confidence := ocr_confidence result;
                 ExtractionResult.pages :=
                   (let n := N.of_nat (length (ocr_pages result)) in
                    if n =? 0 then 1 else n);
                 ExtractionResult.encoding := None;
                 ExtractionResult.metadata :=
                   <[ "extractionMethod"%string := JString (js "google-vision") ]>
                   (<[ "originalSize"%string := JNumber (Z.of_nat (length buf)) ]>
                    (<[ "optimizedSize"%string := JNumber (Z.of_nat (length optimized)) ]>
                     {[ "pages"%string := JArray (ocr_pages result) ]})) |}, w2)
      | (Throw e, w2) => (Throw e, w2)
      end
  | (Throw e, w1) => (Throw e, w1)
  end.
Proof.
  unfold extractFromImage. rewrite try_catch_rethrow. unfold bind at 1.
  destruct (optimizeImage ext buf w) as [[optimized|e] w1]; [|reflexivity].
  unfold bind, ret. now destruct (analyzeDocument ext optimized w1) as [[result|e] w2].
Qed.

End ExtractionProperties.

(** C3. The PDF extraction never throws. When the parser faults, it returns
    the placeholder of the OCR fallback: empty text, confidence 0, 0 pages,
    tagged [extractionMethod = "ocr-fallback"]. When the parser returns, the
    result has the parser's text, confidence 0.95, the parser's page count,
    and no [extractionMethod] tag, so the placeholder differs from the
    result for any parsed document, an empty one included. *)
Theorem extractFromPDF_fallback_placeholder
    {World} (ext : Collaborators World) (buffer : Buffer) (w : World) :
  (exists r w', extractFromPDF ext buffer w = (Ok r, w')) /\
  (forall e w1, pdf ext buffer w = (Throw e, w1) ->
     exists r, extractFromPDF ext buffer w = (Ok r, w1) /\
       ExtractionResult.text r = js "" /\
       ExtractionResult.confidence r = 0%float /\
       ExtractionResult.pages r = 0 /\
       ExtractionResult.metadata r !! "extractionMethod"%string =
         Some (JString (js "ocr-fallback"))) /\
  (forall data w1, pdf ext buffer w = (Ok data, w1) ->
     exists r, extractFromPDF ext buffer w = (Ok r, w1) /\
       ExtractionResult.text r = pdf_text data /\
       ExtractionResult.confidence r = 0.95%float /\
       ExtractionResult.pages r = numpages data /\
       ExtractionResult.metadata r !! "extractionMethod"%string = None).
Proof.
  unfold extractFromPDF, extractFromPDFWithOCR, try_catch, bind, ret.
  destruct (pdf ext buffer w) as [[data|e] w1]; (split; [eauto|]); split.
  - discriminate.
  - intros ? ? [= <- <-]. eexists; split; [reflexivity|]. now repeat split.
  - intros ? ? [= <- <-]. eexists; split; [reflexivity|]. now repeat split.
  - discriminate.
Qed.

(** A file that is not a PDF: the parser faults, the placeholder comes back. *)
Lemma extractFromPDF_fallback_placeholder_witness :
  exists r,
    extractFromPDF Scenario.collaborators (buffer Scenario.brokenPdf) 0%Z = (Ok r, 0%Z) /\
    ExtractionResult.text r = js "" /\
    ExtractionResult.confidence r = 0%float /\
    ExtractionResult.pages r = 0 /\
    ExtractionResult.metadata r !! "extractionMethod"%string =
      Some (JString (js "ocr-fallback")).
Proof.
  destruct (extractFromPDF_fallback_placeholder
              Scenario.collaborators (buffer Scenario.brokenPdf) 0%Z)
    as (_ & Hfault & _).
  apply (Hfault {| message := js "Invalid PDF structure" |}).
  reflexivity.
Defined.

(** C9. The image preprocessor never throws: it returns what the image
    library returns, and the original buffer when the library faults. The
    image extraction runs it first and hands its result to the OCR service
    in the world it left, so the extraction throws only if the OCR service
    does; the dispatcher runs this extraction for every image type. *)
Theorem optimizeImage_never_throws
    {World} (ext : Collaborators World) (buf : Buffer) (w : World) :
  exists optimized w1,
    optimizeImage ext buf w = (Ok optimized, w1) /\
    (forall e w', sharp_pipeline ext buf w = (Throw e, w') ->
       optimized = buf /\ w1 = w') /\
    (forall b w', sharp_pipeline ext buf w = (Ok b, w') ->
       optimized = b /\ w1 = w') /\
    extractFromImage ext buf w =
      match analyzeDocument ext optimized w1 with
      | (Ok result, w2) =>
          (Ok {| ExtractionResult.text := ocr_text result;
                 ExtractionResult.confidence := ocr_confidence result;
                 ExtractionResult.pages :=
                   (let n := N.of_nat (length (ocr_pages result)) in
                    if n =? 0 then 1 else n);
                 ExtractionResult.encoding := None;
                 ExtractionResult.metadata :=
                   <[ "extractionMethod"%string := JString (js "google-vision") ]>
                   (<[ "originalSize"%string := JNumber (Z.of_nat (length buf)) ]>
                    (<[ "optimizedSize"%string := JNumber (Z.of_nat (length optimized)) ]>
                     {[ "pages"%string := JArray (ocr_pages result) ]})) |}, w2)
      | (Throw e, w2) => (Throw e, w2)
      end /\
    (forall file, buf = buffer file ->
       let mimeType := toLowerCase (mimetype file) in
       isPdfType mimeType = false -> isDocType mimeType = false ->
       isImageType mimeType = true ->
       extractText ext file w = extractFromImage ext buf w).
Proof.
  assert (Hfile : forall file, buf = buffer file ->
            let mimeType := toLowerCase (mimetype file) in
            isPdfType mimeType = false -> isDocType mimeType = false ->
            isImageType mimeType = true ->
            extractText ext file w = extractFromImage ext buf w).
  { intros file -> mimeType. apply extractText_image. }
  rewrite extractFromImage_run, optimizeImage_Ok in Hfile |- *.
  destruct (sharp_pipeline ext buf w) as [[b|e] w1].
  - exists b, w1. split; [reflexivity|]. split; [discriminate|].
    split; [now intros ? ? [= <- <-]|]. now split.
  - exists buf, w1. split; [reflexivity|]. split; [now intros ? ? [= <- <-]|].
    split; [discriminate|]. now split.
Qed.

(** An empty upload: the image library faults, the OCR service still gets
    the original bytes and the extraction returns. *)
Lemma optimizeImage_never_throws_witness :
  optimizeImage Scenario.collaborators [] 0%Z = (Ok [], 0%Z) /\
  is_ok (fst (extractFromImage Scenario.collaborators [] 0%Z)) = true.
Proof.
  destruct (optimizeImage_never_throws Scenario.collaborators [] 0%Z)
    as (optimized & w1 & Hopt & Hfault & _ & Hrun & _).
  destruct (Hfault {| message := js "Input buffer is empty" |} 0%Z eq_refl) as [-> ->].
  split; [exact Hopt|]. rewrite Hrun. reflexivity.
Defined.

(** C10. A processed document has at least one page: its page count is the
    one of the extraction result, with 1 in place of 0. *)
Theorem processDocument_pages_at_least_one
    {World} (ext : Collaborators World) (env : Env)
    (file : File) (w w' : World) (doc : ProcessedDocument.t) :
  processDocument ext env file w = (Ok doc, w') ->
  (1 <= ProcessedDocument.pages doc)%N /\
  exists wa er wb,
    extractText ext file wa = (Ok er, wb) /\
    ProcessedDocument.pages doc =
      (if ExtractionResult.pages er =? 0 then 1 else ExtractionResult.pages er)%N.
Proof.
  intros Hrun.
  destruct (processDocument_Ok_inv ext env file w w' doc Hrun)
    as (_ & wa & er & wb & Her & _ & _ & Hpages & _).
  split.
  - rewrite Hpages. destruct (N.eqb_spec (ExtractionResult.pages er) 0); lia.
  - now exists wa, er, wb.
Qed.

(** The PDF that the parser rejects is extracted with 0 pages and processed
    into a document of 1 page. *)
Lemma processDocument_pages_at_least_one_witness :
  exists doc w',
    processDocument Scenario.collaborators Scenario.env Scenario.brokenPdf 0%Z = (Ok doc, w') /\
    (exists er, fst (extractText Scenario.collaborators Scenario.brokenPdf 2%Z) = Ok er /\
                ExtractionResult.pages er = 0) /\
    (1 <= ProcessedDocument.pages doc)%N.
Proof.
  destruct (processDocument Scenario.collaborators Scenario.env Scenario.brokenPdf 0%Z)
    as [[doc|e] w'] eqn:Hrun.
  - exists doc, w'. split; [reflexivity|]. split.
    + eexists. split; reflexivity.
    + exact (proj1 (processDocument_pages_at_least_one _ _ _ _ _ _ Hrun)).
  - vm_compute in Hrun. discriminate Hrun.
Defined.

(** ** Plain text *)

(** The first decoding never throws, so the plain-text extraction always
    returns the result of its first branch. *)
Lemma extractFromText_Ok {World} (buffer : Buffer) (w : World) :
  extractFromText buffer w =
  (Ok {| ExtractionResult.text := Buf.toString Buf.Utf8 buffer;
         ExtractionResult.confidence := 1.0%float;
         ExtractionResult.pages := estimatePages (Buf.toString Buf.Utf8 buffer);
         ExtractionResult.encoding := Some (js "UTF-8");
         ExtractionResult.metadata :=
           <[ "extractionMethod"%string := JString (js "direct") ]>
           {[ "originalEncoding"%string := JString (js "UTF-8") ]} |}, w).
Proof. reflexivity. Qed.

(** [estimatePages] is the length divided by 3000, rounded up. *)
Lemma estimatePages_ceil (text : jsstring) :
  N.of_nat (length text) <= 3000 * estimatePages text /\
  3000 * estimatePages text < N.of_nat (length text) + 3000.
Proof.
  unfold estimatePages.
  pose proof (N.div_mod' (N.of_nat (length text) + 2999) 3000) as Hdiv.
  assert (Hmod : (N.of_nat (length text) + 2999) mod 3000 < 3000)
    by (apply N.mod_lt; discriminate).
  generalize dependent ((N.of_nat (length text) + 2999) mod 3000).
  generalize dependent ((N.of_nat (length text) + 2999) / 3000).
  intros. lia.
Qed.

(** C5, at the input where the code departs from it. The buffer holding
    the single byte 0xFF is not valid UTF-8, yet its extraction is not the
    fallback one: the text is U+FFFD, the confidence is 1.0 and not 0.9, the
    encoding is "UTF-8" and the method is "direct". The page count is the
    rounded-up quotient, here 1. *)
Theorem extractFromText_invalid_utf8_no_fallback
    {World} (ext : Collaborators World) (w : World) :
  exists r,
    extractText ext Scenario.invalidUtf8File w = (Ok r, w) /\
    extractFromText (buffer Scenario.invalidUtf8File) w = (Ok r, w) /\
    ExtractionResult.text r = [65533] /\
    ExtractionResult.confidence r = 1.0%float /\
    PrimFloat.eqb (ExtractionResult.confidence r) 0.9 = false /\
    ExtractionResult.encoding r = Some (js "UTF-8") /\
    ExtractionResult.metadata r !! "extractionMethod"%string = Some (JString (js "direct")) /\
    ExtractionResult.pages r = 1.
Proof.
  eexists. split; [reflexivity|]. now repeat split.
Qed.

(** ** Word count *)

Section WordCount.

Local Abbreviation count l := (length (List.filter nonEmpty l)).

(** Splitting at runs of white space and splitting at every white-space
    code unit give the same non-empty pieces. *)
Lemma split_ws_from_tokens (s : jsstring) : forall (in_ws : bool) (cur : jsstring),
  (in_ws = true -> cur = []) ->
  count (split_ws_from in_ws cur s) = count (spec_tokens cur s).
Proof.
  induction s as [|c s IH]; intros in_ws cur Hcur; simpl; [reflexivity|].
  destruct (isWhiteSpace c).
  - destruct in_ws.
    + rewrite (Hcur eq_refl). simpl. now apply IH.
    + simpl. destruct (nonEmpty cur); simpl; now rewrite IH.
  - apply IH. discriminate.
Qed.

Lemma spec_tokens_trimStart (s : jsstring) :
  count (spec_tokens [] (trimStart s)) = count (spec_tokens [] s).
Proof.
  induction s as [|c s IH]; simpl; [reflexivity|].
  destruct (isWhiteSpace c) eqn:Hc; simpl.
  - exact IH.
  - now rewrite Hc.
Qed.

Lemma spec_tokens_all_ws (t : jsstring) : forall cur,
  Forall (fun c => isWhiteSpace c = true) t ->
  count (spec_tokens cur t) = count [cur].
Proof.
  induction t as [|c t IH]; intros cur Hall; [reflexivity|].
  inversion Hall as [|? ? Hc Ht]; subst. simpl. rewrite Hc. simpl.
  destruct (nonEmpty cur); simpl; now rewrite (IH [] Ht).
Qed.

Lemma spec_tokens_trailing_ws (a t : jsstring) : forall cur,
  Forall (fun c => isWhiteSpace c = true) t ->
  count (spec_tokens cur (a ++ t)) = count (spec_tokens cur a).
Proof.
  induction a as [|c a IH]; intros cur Hall; simpl.
  - now apply spec_tokens_all_ws.
  - destruct (isWhiteSpace c); simpl.
    + destruct (nonEmpty cur); simpl; now rewrite IH.
    + now apply IH.
Qed.

(** [trimStart] removes a prefix of white space. *)
Lemma trimStart_prefix (u : jsstring) :
  exists pre, u = pre ++ trimStart u /\ Forall (fun c => isWhiteSpace c = true) pre.
Proof.
  induction u as [|c u (pre & Hu & Hpre)]; simpl.
  - now exists [].
  - destruct (isWhiteSpace c) eqn:Hc.
    + exists (c :: pre). split; [simpl; now rewrite <- Hu | now constructor].
    + now exists [].
Qed.

(** [trimEnd] removes a suffix of white space. *)
Lemma trimEnd_suffix (s : jsstring) :
  exists suf, s = trimEnd s ++ suf /\ Forall (fun c => isWhiteSpace c = true) suf.
Proof.
  destruct (trimStart_prefix (rev s)) as (pre & Hs & Hpre).
  exists (rev pre). split.
  - unfold trimEnd. rewrite <- rev_app_distr, <- Hs. symmetry. apply rev_involutive.
  - now apply List.Forall_rev.
Qed.

Lemma spec_tokens_trim (s : jsstring) :
  count (spec_tokens [] (trim s)) = count (spec_tokens [] s).
Proof.
  unfold trim.
  destruct (trimEnd_suffix (trimStart s)) as (suf & Hs & Hsuf).
  transitivity (count (spec_tokens [] (trimEnd (trimStart s) ++ suf))).
  - symmetry. now apply spec_tokens_trailing_ws.
  - rewrite <- Hs. apply spec_tokens_trimStart.
Qed.

Lemma countWords_spec_wordCount (text : jsstring) :
  countWords text = spec_wordCount text.
Proof.
  unfold countWords, spec_wordCount. destruct text as [|c text]; [reflexivity|].
  change (count (split_ws (trim (c :: text))) = count (spec_tokens [] (c :: text))).
  unfold split_ws. rewrite split_ws_from_tokens by discriminate.
  apply spec_tokens_trim.
Qed.

End WordCount.

(** C6. The word count is the number of non-empty tokens obtained by
    splitting the text on white space; the empty text has 0 words, the text
    "a", two spaces, "b", a tab, "c" has 3; and the word count of a
    processed document is that of its extracted text. *)
Theorem countWords_counts_tokens :
  (forall text, countWords text = spec_wordCount text) /\
  countWords (js "") = 0%nat /\
  countWords (js "a  b" ++ [9] ++ js "c") = 3%nat /\
  (forall World (ext : Collaborators World) env file w w' doc,
     processDocument ext env file w = (Ok doc, w') ->
     ProcessedDocument.wordCount doc =
       spec_wordCount (ProcessedDocument.extractedText doc)).
Proof.
  split; [exact countWords_spec_wordCount|]. split; [reflexivity|]. split; [reflexivity|].
  intros World ext env file w w' doc Hrun.
  destruct (processDocument_Ok_inv ext env file w w' doc Hrun)
    as (_ & wa & er & wb & _ & Htext & _ & _ & Hcount).
  rewrite Hcount, Htext. apply countWords_spec_wordCount.
Qed.

(** A two-word text file is processed into a document with word count 2. *)
Lemma countWords_counts_tokens_witness :
  exists doc w',
    processDocument Scenario.collaborators Scenario.env
      (Scenario.textFile "a.txt" "hello world") 0%Z = (Ok doc, w') /\
    ProcessedDocument.wordCount doc = 2%nat.
Proof.
  destruct (processDocument Scenario.collaborators Scenario.env
              (Scenario.textFile "a.txt" "hello world") 0%Z)
    as [[doc|e] w'] eqn:Hrun.
  - exists doc, w'. split; [reflexivity|].
    rewrite (proj2 (proj2 (proj2 countWords_counts_tokens)) _ _ _ _ _ _ _ Hrun).
    vm_compute in Hrun. injection Hrun as <- _. reflexivity.
  - vm_compute in Hrun. discriminate Hrun.
Defined.

(** ** Language heuristic *)

Lemma scoredWords_length (text : jsstring) : (length (scoredWords text) <= 100)%nat.
Proof. unfold scoredWords, slice0. rewrite length_firstn. lia. Qed.

(** C8, as the code has it. For a non-empty text the heuristic scores at
    most 100 lower-cased tokens, split at white space, against the English,
    Spanish and French lists and returns a language with the highest score;
    among the languages with that score it returns the first in the order
    English, Spanish, French, so English when English is among them and in
    particular when all scores are 0. For the empty text it returns
    "unknown". *)
Theorem detectLanguage_first_highest (text : jsstring) :
  detectLanguage [] = js "unknown" /\
  (text <> [] ->
   let words := scoredWords text in
   let en := langScore words enWords in
   let es := langScore words esWords in
   let fr := langScore words frWords in
   (length words <= 100)%nat /\
   ((detectLanguage text = js "en" /\ (es <= en)%nat /\ (fr <= en)%nat) \/
    (detectLanguage text = js "es" /\ (en < es)%nat /\ (fr <= es)%nat) \/
    (detectLanguage text = js "fr" /\ (en < fr)%nat /\ (es < fr)%nat))).
Proof.
  split; [reflexivity|]. intros Htext words en es fr.
  split; [apply scoredWords_length|].
  destruct text as [|c text]; [contradiction|].
  unfold detectLanguage. fold (scoredWords (c :: text)). fold words.
  unfold commonWords. cbn [fold_left detectStep].
  fold en es fr.
  assert (Hfirst : (if (0 <? en)%nat then (en, js "en") else (0%nat, js "en")) =
                   (en, js "en")).
  { destruct (Nat.ltb_spec 0 en); [reflexivity | f_equal; lia]. }
  rewrite Hfirst. cbn [detectStep]. fold es.
  destruct (Nat.ltb_spec en es) as [Hes|Hes]; cbn [detectStep]; fold fr.
  - destruct (Nat.ltb_spec es fr) as [Hfr|Hfr]; cbn [snd].
    + right; right. split; [reflexivity | lia].
    + right; left. split; [reflexivity | lia].
  - destruct (Nat.ltb_spec en fr) as [Hfr|Hfr]; cbn [snd].
    + right; right. split; [reflexivity | lia].
    + left. split; [reflexivity | lia].
Qed.

(** An English sentence scores highest for English. *)
Lemma detectLanguage_first_highest_witness :
  detectLanguage (js "the terms of the contract") = js "en".
Proof.
  destruct (detectLanguage_first_highest (js "the terms of the contract")) as [_ Hpick].
  destruct Hpick as (_ & [(Hen & _) | [(_ & Hlt & _) | (_ & Hlt & _)]]).
  - discriminate.
  - exact Hen.
  - vm_compute in Hlt. lia.
  - vm_compute in Hlt. lia.
Defined.

(** C8 fails as stated: the empty text is tagged "unknown" and not English,
    and a tie between Spanish and French above English gives Spanish. *)
Lemma detectLanguage_not_always_english :
  detectLanguage (js "") = js "unknown" /\
  detectLanguage (js "el le") = js "es" /\
  langScore (scoredWords (js "el le")) enWords = 0%nat /\
  langScore (scoredWords (js "el le")) esWords = 1%nat /\
  langScore (scoredWords (js "el le")) frWords = 1%nat.
Proof.
  repeat split; reflexivity.
Qed.

(** * Further properties of the processor *)

Section ProcessorFacts.

Context {World : Type}.
Variable ext : Collaborators World.
Variable env : Env.

Local Open Scope string_scope.
Local Open Scope list_scope.
Local Open Scope N_scope.

(** The document of a job that returned, field by field. *)
Lemma processDocument_Ok_fields (file : File) (w w' : World) (doc : ProcessedDocument.t) :
  processDocument ext env file w = (Ok doc, w') ->
  exists documentId w0 startTime w1 er w2 uploadResult w3 now w4 createdAt,
    uuidv4 ext w = (Ok documentId, w0) /\
    Date_now ext w0 = (Ok startTime, w1) /\
    extractText ext file w1 = (Ok er, w2) /\
    uploadFile ext (buffer file) (originalname file) (mimetype file) w2 =
      (Ok uploadResult, w3) /\
    Date_now ext w3 = (Ok now, w4) /\
    Date_toISOString ext w4 = (Ok createdAt, w') /\
    ProcessedDocument.documentId doc = documentId /\
    ProcessedDocument.originalName doc = originalname file /\
    ProcessedDocument.mimeType doc = mimetype file /\
    ProcessedDocument.size doc = size file /\
    ProcessedDocument.uploadUrl doc = url uploadResult /\
    ProcessedDocument.extractedText doc = ExtractionResult.text er /\
    ProcessedDocument.processingTime doc = (now - startTime)%Z /\
    ProcessedDocument.metadata doc =
      ExtractionResult.metadata er ∪
      (<[ "language" := JString (detectLanguage (ExtractionResult.text er)) ]>
       (<[ "encoding" := JString (orString (ExtractionResult.encoding er) (js "UTF-8")) ]>
        {[ "createdAt" := JString createdAt ]})).
Proof.
  unfold processDocument, bind at 1.
  destruct (uuidv4 ext w) as [[documentId|e] w0] eqn:Hid; [|discriminate].
  unfold bind at 1.
  destruct (Date_now ext w0) as [[startTime|e] w1] eqn:Hstart; [|discriminate].
  unfold try_catch, bind at 1.
  destruct (isValid (validateFile env (Some file))); simpl; [|discriminate].
  unfold bind at 1.
  destruct (extractText ext file w1) as [[er|e] w2] eqn:Her; [|discriminate].
  unfold bind at 1.
  destruct (uploadFile ext (buffer file) (originalname file) (mimetype file) w2)
    as [[uploadResult|e] w3] eqn:Hup; [|discriminate].
  unfold bind at 1.
  destruct (Date_now ext w3) as [[now|e] w4] eqn:Hnow; [|discriminate].
  unfold bind at 1.
  destruct (Date_toISOString ext w4) as [[createdAt|e] w5] eqn:Hiso; [|discriminate].
  unfold ret. intros [= <- <-].
  exists documentId, w0, startTime, w1, er, w2, uploadResult, w3, now, w4, createdAt.
  simpl. repeat match goal with |- _ /\ _ => split end; reflexivity || assumption.
Qed.

(** Once the id and the start time are taken, whatever goes wrong is
    reported with the prefix of [processDocument]. *)
Lemma processDocument_Throw_prefix (file : File) (w w0 w1 w' : World)
    (documentId : jsstring) (startTime : Z) (e : Error) :
  uuidv4 ext w = (Ok documentId, w0) ->
  Date_now ext w0 = (Ok startTime, w1) ->
  processDocument ext env file w = (Throw e, w') ->
  exists cause, message e = js "Document processing failed: " ++ cause.
Proof.
  intros Hid Hstart. unfold processDocument, bind at 1. rewrite Hid.
  unfold bind at 1. rewrite Hstart. unfold try_catch.
  match goal with
  | |- context [match ?body w1 with _ => _ end] => destruct (body w1) as [[doc|cause] w2]
  end.
  - discriminate.
  - unfold throw. intros [= <- _]. now exists (message cause).
Qed.

End ProcessorFacts.

Section BatchFacts.

Context {World : Type}.
Variable ext : Collaborators World.
Variable env : Env.

(** In a run, a document belongs to the file it is paired with. *)
Lemma attempts_names (files : list File) : forall w,
  Forall (fun o => forall doc, snd o = Ok doc ->
                   ProcessedDocument.originalName doc = originalname (fst o))
         (fst (attempts ext env files w)).
Proof.
  induction files as [|file rest IH]; intros w; simpl; [constructor|].
  destruct (processDocument ext env file w) as [r w1] eqn:Hrun.
  specialize (IH w1). destruct (attempts ext env rest w1) as [rs w2].
  simpl in *. constructor; [|exact IH].
  simpl. intros doc ->.
  destruct (processDocument_Ok_fields ext env file w w1 doc Hrun)
    as (? & ? & ? & ? & ? & ? & ? & ? & ? & ? & ? & _ & _ & _ & _ & _ & _ & _ & Hname & _).
  exact Hname.
Qed.

Lemma successes_sublist (run : list (File * Result ProcessedDocument.t)) :
  Forall (fun o => forall doc, snd o = Ok doc ->
                   ProcessedDocument.originalName doc = originalname (fst o)) run ->
  map ProcessedDocument.originalName (successes run) `sublist_of`
  map originalname (map fst run).
Proof.
  induction 1 as [|[file [doc|e]] rest Hhead Hrest IH]; simpl.
  - constructor.
  - rewrite (Hhead doc eq_refl). now constructor.
  - now constructor.
Qed.

Lemma failures_sublist (run : list (File * Result ProcessedDocument.t)) :
  map FailedDocument.fileName (failures run) `sublist_of`
  map originalname (map fst run).
Proof.
  induction run as [|[file [doc|e]] rest IH]; simpl; now constructor.
Qed.

(** When the id generator and the clock return, every error of a run
    carries the prefix of [processDocument]. *)
Lemma failures_prefixed (files : list File) :
  (forall w, exists documentId w0, uuidv4 ext w = (Ok documentId, w0)) ->
  (forall w, exists startTime w1, Date_now ext w = (Ok startTime, w1)) ->
  forall w,
    Forall (fun entry => exists cause,
              FailedDocument.error entry = js "Document processing failed: " ++ cause)
           (failures (fst (attempts ext env files w))).
Proof.
  intros Hid Hnow.
  induction files as [|file rest IH]; intros w; simpl; [constructor|].
  destruct (processDocument ext env file w) as [[doc|e] w1] eqn:Hrun;
    specialize (IH w1); destruct (attempts ext env rest w1) as [rs w2]; simpl in *;
    [exact IH|].
  constructor; [|exact IH]. simpl.
  destruct (Hid w) as (documentId & w0 & Hid0).
  destruct (Hnow w0) as (startTime & w0' & Hnow0).
  exact (processDocument_Throw_prefix ext env file w w0 w0' w1 documentId startTime e
           Hid0 Hnow0 Hrun).
Qed.

End BatchFacts.

(** X1. The Word extraction passes a fault of the converter on unchanged.
    When the converter returns, the result has the converter's text,
    confidence 0.98, the text length divided by 3000 and rounded up as page
    count (0 for an empty text), and the converter's warnings under
    [messages]. *)
Theorem extractFromWord_result
    {World} (ext : Collaborators World) (buf : Buffer) (w : World) :
  (forall e w1, mammoth_extractRawText ext buf w = (Throw e, w1) ->
     extractFromWord ext buf w = (Throw e, w1)) /\
  (forall result w1, mammoth_extractRawText ext buf w = (Ok result, w1) ->
     exists r, extractFromWord ext buf w = (Ok r, w1) /\
       ExtractionResult.text r = value result /\
       ExtractionResult.confidence r = 0.98%float /\
       N.of_nat (length (value result)) <= 3000 * ExtractionResult.pages r /\
       3000 * ExtractionResult.pages r < N.of_nat (length (value result)) + 3000 /\
       ExtractionResult.metadata r !! "messages"%string = Some (messages result) /\
       ExtractionResult.metadata r !! "extractionMethod"%string =
         Some (JString (js "mammoth"))).
Proof.
  unfold extractFromWord. rewrite try_catch_rethrow. unfold bind, ret.
  destruct (mammoth_extractRawText ext buf w) as [[result|e] w1]; split.
  - discriminate.
  - intros ? ? [= <- <-]. eexists. split; [reflexivity|]. simpl.
    destruct (estimatePages_ceil (value result)) as [Hlow Hhigh].
    now repeat split.
  - now intros ? ? [= <- <-].
  - discriminate.
Qed.

(** A Word file of five characters: one page. *)
Lemma extractFromWord_result_witness :
  exists r,
    extractFromWord Scenario.collaborators (Scenario.bytes "hello") 0%Z = (Ok r, 0%Z) /\
    ExtractionResult.confidence r = 0.98%float /\
    ExtractionResult.pages r = 1.
Proof.
  destruct (extractFromWord_result Scenario.collaborators (Scenario.bytes "hello") 0%Z)
    as [_ Hok].
  destruct (Hok _ _ eq_refl) as (r & Hrun & _ & Hconf & Hlow & Hhigh & _).
  exists r. split; [exact Hrun|]. split; [exact Hconf|].
  vm_compute in Hrun. injection Hrun as <-. reflexivity.
Defined.

(** X2. A file that fails validation is rejected before anything else is
    done with it: once the id and the start time are taken,
    [processDocument] throws the validation message behind its prefix and
    leaves the world as the clock left it, so neither an extractor nor the
    blob store was called. *)
Theorem processDocument_rejects_invalid_early
    {World} (ext : Collaborators World) (env : Env) (file : File)
    (w w0 w1 : World) (documentId : jsstring) (startTime : Z) :
  uuidv4 ext w = (Ok documentId, w0) ->
  Date_now ext w0 = (Ok startTime, w1) ->
  isValid (validateFile env (Some file)) = false ->
  processDocument ext env file w =
    (Throw {| message := js "Document processing failed: " ++
                         default (js "undefined") (error (validateFile env (Some file))) |},
     w1).
Proof.
  intros Hid Hstart Hinvalid. unfold processDocument, bind at 1. rewrite Hid.
  unfold bind at 1. rewrite Hstart. unfold try_catch, bind at 1.
  rewrite Hinvalid. reflexivity.
Qed.

(** The archive is rejected with the message of the type check. *)
Lemma processDocument_rejects_invalid_early_witness :
  processDocument Scenario.collaborators Scenario.env Scenario.zipFile 0%Z =
    (Throw {| message :=
                js "Document processing failed: Unsupported file type: application/zip. Supported types: pdf, doc, docx, txt, jpg, jpeg, png" |},
     2%Z).
Proof.
  rewrite (processDocument_rejects_invalid_early Scenario.collaborators Scenario.env
             Scenario.zipFile 0%Z 1%Z 2%Z (js "doc-0") 1%Z);
    reflexivity.
Defined.

(** X3. A valid file whose processing fails later is reported as failed as
    a whole. When the extraction throws, the blob store is not called; when
    the extraction returns and the upload throws, the extracted text is
    dropped. In both cases the error is the cause's message behind the
    prefix of [processDocument]. *)
Theorem processDocument_failure_after_validation
    {World} (ext : Collaborators World) (env : Env) (file : File)
    (w w0 w1 : World) (documentId : jsstring) (startTime : Z) :
  uuidv4 ext w = (Ok documentId, w0) ->
  Date_now ext w0 = (Ok startTime, w1) ->
  isValid (validateFile env (Some file)) = true ->
  (forall e w2, extractText ext file w1 = (Throw e, w2) ->
     processDocument ext env file w =
       (Throw {| message := js "Document processing failed: " ++ message e |}, w2)) /\
  (forall er w2 e w3,
     extractText ext file w1 = (Ok er, w2) ->
     uploadFile ext (buffer file) (originalname file) (mimetype file) w2 = (Throw e, w3) ->
     processDocument ext env file w =
       (Throw {| message := js "Document processing failed: " ++ message e |}, w3)).
Proof.
  intros Hid Hstart Hvalid.
  split; [intros e w2 Hext | intros er w2 e w3 Hext Hup];
    unfold processDocument, bind at 1; rewrite Hid;
    unfold bind at 1; rewrite Hstart; unfold try_catch, bind at 1;
    rewrite Hvalid; cbn [negb]; unfold ret at 1; cbv beta iota;
    unfold bind at 1; rewrite Hext.
  - reflexivity.
  - unfold bind at 1. rewrite Hup. reflexivity.
Qed.

(** With the blob store down, a good text file is reported as failed. *)
Lemma processDocument_failure_after_validation_witness :
  processDocument StorageDown.collaborators Scenario.env
    (Scenario.textFile "a.txt" "hello") 0%Z =
    (Throw {| message := js "Document processing failed: Storage unavailable" |}, 2%Z).
Proof.
  destruct (processDocument_failure_after_validation StorageDown.collaborators Scenario.env
              (Scenario.textFile "a.txt" "hello") 0%Z 1%Z 2%Z (js "doc-0") 1%Z
              eq_refl eq_refl eq_refl) as [_ Hupload].
  exact (Hupload _ 2%Z {| message := js "Storage unavailable" |} 2%Z eq_refl eq_refl).
Defined.

(** X4. When the id generator and the clock never throw, every entry of the
    batch's error list carries a message that starts with "Document
    processing failed: ". *)
Theorem processDocuments_errors_prefixed
    {World} (ext : Collaborators World) (env : Env) (files : list File)
    (w w' : World) (r : BatchResult) :
  (forall w, exists documentId w0, uuidv4 ext w = (Ok documentId, w0)) ->
  (forall w, exists startTime w1, Date_now ext w = (Ok startTime, w1)) ->
  processDocuments ext env files w = (Ok r, w') ->
  Forall (fun entry => exists cause,
            FailedDocument.error entry = js "Document processing failed: " ++ cause)
         (failed r).
Proof.
  intros Hid Hnow. rewrite processDocuments_attempts. intros [= <- _]. simpl.
  now apply failures_prefixed.
Qed.

(** The archive's entry in the error list carries the prefix. *)
Lemma processDocuments_errors_prefixed_witness :
  exists r w',
    processDocuments Scenario.collaborators Scenario.env
      [Scenario.textFile "a.txt" "hello"; Scenario.zipFile] 0%Z = (Ok r, w') /\
    length (failed r) = 1%nat /\
    Forall (fun entry => exists cause,
              FailedDocument.error entry = js "Document processing failed: " ++ cause)
           (failed r).
Proof.
  destruct (processDocuments Scenario.collaborators Scenario.env
              [Scenario.textFile "a.txt" "hello"; Scenario.zipFile] 0%Z)
    as [[r|e] w'] eqn:Hrun.
  - exists r, w'. split; [reflexivity|]. split.
    + vm_compute in Hrun. injection Hrun as <- _. reflexivity.
    + apply (processDocuments_errors_prefixed Scenario.collaborators Scenario.env
               [Scenario.textFile "a.txt" "hello"; Scenario.zipFile] 0%Z w' r).
      * intros w. eexists; eexists; reflexivity.
      * intros w. eexists; eexists; reflexivity.
      * exact Hrun.
  - vm_compute in Hrun. discriminate Hrun.
Defined.

(** X5. The batch keeps the submission order: the names of the documents in
    [successful] and the file names in [failed] are each a subsequence of
    the names of the submitted files. *)
Theorem processDocuments_preserves_order
    {World} (ext : Collaborators World) (env : Env) (files : list File)
    (w w' : World) (r : BatchResult) :
  processDocuments ext env files w = (Ok r, w') ->
  map ProcessedDocument.originalName (successful r) `sublist_of` map originalname files /\
  map FailedDocument.fileName (failed r) `sublist_of` map originalname files.
Proof.
  rewrite processDocuments_attempts. intros [= <- _]. simpl.
  rewrite <- (attempts_files ext env files w) at 2 4. split.
  - apply successes_sublist, attempts_names.
  - apply failures_sublist.
Qed.

(** Three files, the middle one rejected: the names come back in order. *)
Lemma processDocuments_preserves_order_witness :
  exists r w',
    processDocuments Scenario.collaborators Scenario.env
      [Scenario.textFile "a.txt" "hello"; Scenario.zipFile;
       Scenario.textFile "b.txt" "world"] 0%Z = (Ok r, w') /\
    map ProcessedDocument.originalName (successful r) = [js "a.txt"; js "b.txt"] /\
    map ProcessedDocument.originalName (successful r) `sublist_of`
      [js "a.txt"; js "bundle.zip"; js "b.txt"].
Proof.
  destruct (processDocuments Scenario.collaborators Scenario.env
              [Scenario.textFile "a.txt" "hello"; Scenario.zipFile;
               Scenario.textFile "b.txt" "world"] 0%Z)
    as [[r|e] w'] eqn:Hrun.
  - exists r, w'. split; [reflexivity|]. split.
    + vm_compute in Hrun. injection Hrun as <- _. reflexivity.
    + exact (proj1 (processDocuments_preserves_order _ _ _ _ _ _ Hrun)).
  - vm_compute in Hrun. discriminate Hrun.
Defined.

Section ExtractionFacts.

Context {World : Type}.
Variable ext : Collaborators World.

Local Open Scope string_scope.
Local Open Scope list_scope.
Local Open Scope N_scope.

(** What every result of the dispatcher looks like: its metadata does not
    use the keys that [processDocument] sets, its encoding is absent or
    "UTF-8", and its confidence is fixed by the category unless the
    category is image. *)
Lemma extractText_Ok_shape (file : File) (w w' : World) (er : ExtractionResult.t) :
  extractText ext file w = (Ok er, w') ->
  let mimeType := toLowerCase (mimetype file) in
  (ExtractionResult.metadata er !! "language" = None /\
   ExtractionResult.metadata er !! "encoding" = None /\
   ExtractionResult.metadata er !! "createdAt" = None) /\
  orString (ExtractionResult.encoding er) (js "UTF-8") = js "UTF-8" /\
  (isPdfType mimeType = true ->
     ExtractionResult.confidence er = 0.95%float \/
     (ExtractionResult.confidence er = 0%float /\ ExtractionResult.text er = [])) /\
  (isPdfType mimeType = false -> isDocType mimeType = true ->
     ExtractionResult.confidence er = 0.98%float) /\
  (isPdfType mimeType = false -> isDocType mimeType = false ->
   isImageType mimeType = false ->
     ExtractionResult.confidence er = 1.0%float /\
     ExtractionResult.text er = Buf.toString Buf.Utf8 (buffer file)).
Proof.
  intros Hrun mimeType. unfold extractText in Hrun. fold mimeType in Hrun.
  rewrite try_catch_rethrow in Hrun.
  destruct (isPdfType mimeType) eqn:Hpdf.
  { unfold extractFromPDF, extractFromPDFWithOCR, try_catch, bind, ret in Hrun.
    destruct (pdf ext (buffer file) w) as [[data|e] w1];
      injection Hrun as <- <-; simpl;
      (split; [now repeat split|]); (split; [reflexivity|]);
      (split; [intros _; auto|]); split; discriminate. }
  destruct (isDocType mimeType) eqn:Hdoc.
  { unfold extractFromWord in Hrun. rewrite try_catch_rethrow in Hrun.
    unfold bind, ret in Hrun.
    destruct (mammoth_extractRawText ext (buffer file) w) as [[result|e] w1];
      [|discriminate].
    injection Hrun as <- <-. simpl.
    split; [now repeat split|]. split; [reflexivity|].
    split; [discriminate|]. split; [reflexivity | discriminate]. }
  destruct (isImageType mimeType) eqn:Himg.
  { rewrite extractFromImage_run in Hrun.
    destruct (optimizeImage ext (buffer file) w) as [[optimized|e] w1]; [|discriminate].
    destruct (analyzeDocument ext optimized w1) as [[result|e] w2]; [|discriminate].
    injection Hrun as <- <-. simpl.
    split; [now repeat split|]. split; [reflexivity|].
    split; [discriminate|]. split; discriminate. }
  destruct (isTextType mimeType) eqn:Htext; [|discriminate].
  rewrite extractFromText_Ok in Hrun. injection Hrun as <- <-. simpl.
  split; [now repeat split|]. split; [reflexivity|].
  split; [discriminate|]. split; [discriminate|]. now intros.
Qed.

End ExtractionFacts.

(** X7. The metadata of a processed document: [language] is the tag of the
    heuristic for the extracted text, [encoding] is "UTF-8" whatever the
    category, [createdAt] is a time stamp, and every entry that the
    extractor recorded is kept. *)
Theorem processDocument_metadata
    {World} (ext : Collaborators World) (env : Env)
    (file : File) (w w' : World) (doc : ProcessedDocument.t) :
  processDocument ext env file w = (Ok doc, w') ->
  ProcessedDocument.metadata doc !! "language"%string =
    Some (JString (detectLanguage (ProcessedDocument.extractedText doc))) /\
  ProcessedDocument.metadata doc !! "encoding"%string = Some (JString (js "UTF-8")) /\
  (exists createdAt,
     ProcessedDocument.metadata doc !! "createdAt"%string = Some (JString createdAt)) /\
  (exists er w1 w2,
     extractText ext file w1 = (Ok er, w2) /\
     forall key v, ExtractionResult.metadata er !! key = Some v ->
                   ProcessedDocument.metadata doc !! key = Some v).
Proof.
  intros Hrun.
  destruct (processDocument_Ok_fields ext env file w w' doc Hrun)
    as (documentId & w0 & startTime & w1 & er & w2 & uploadResult & w3 & now & w4 &
        createdAt & _ & _ & Her & _ & _ & _ & _ & _ & _ & _ & _ & Htext & _ & Hmeta).
  destruct (extractText_Ok_shape ext file w1 w2 er Her)
    as ((Hlang & Henc & Hcreated) & Hutf8 & _).
  rewrite Hmeta, Htext, Hutf8.
  split; [now rewrite lookup_union_r by exact Hlang|].
  split; [now rewrite lookup_union_r by exact Henc|].
  split; [exists createdAt; now rewrite lookup_union_r by exact Hcreated|].
  exists er, w1, w2. split; [exact Her|].
  intros key v Hkey. now apply lookup_union_Some_l.
Qed.

(** A processed text file: tagged English, encoding "UTF-8", method
    "direct". *)
Lemma processDocument_metadata_witness :
  exists doc w',
    processDocument Scenario.collaborators Scenario.env
      (Scenario.textFile "a.txt" "the terms of the contract") 0%Z = (Ok doc, w') /\
    ProcessedDocument.metadata doc !! "language"%string = Some (JString (js "en")) /\
    ProcessedDocument.metadata doc !! "encoding"%string = Some (JString (js "UTF-8")).
Proof.
  destruct (processDocument Scenario.collaborators Scenario.env
              (Scenario.textFile "a.txt" "the terms of the contract") 0%Z)
    as [[doc|e] w'] eqn:Hrun.
  - exists doc, w'. split; [reflexivity|].
    destruct (processDocument_metadata _ _ _ _ _ _ Hrun) as (Hlang & Henc & _).
    split; [|exact Henc]. rewrite Hlang.
    vm_compute in Hrun. injection Hrun as <- _. reflexivity.
  - vm_compute in Hrun. discriminate Hrun.
Defined.

(** X8. The confidence of a processed document is fixed by its category:
    0.95 for a PDF, or 0 with an empty text when the PDF parser failed;
    0.98 for a Word document; 1.0 for plain text, whose text is the UTF-8
    decoding of the file. Only an image takes its confidence from the OCR
    service. *)
Theorem processDocument_confidence_by_category
    {World} (ext : Collaborators World) (env : Env)
    (file : File) (w w' : World) (doc : ProcessedDocument.t) :
  processDocument ext env file w = (Ok doc, w') ->
  let mimeType := toLowerCase (mimetype file) in
  (isPdfType mimeType = true ->
     ProcessedDocument.confidence doc = 0.95%float \/
     (ProcessedDocument.confidence doc = 0%float /\
      ProcessedDocument.extractedText doc = [])) /\
  (isPdfType mimeType = false -> isDocType mimeType = true ->
     ProcessedDocument.confidence doc = 0.98%float) /\
  (isPdfType mimeType = false -> isDocType mimeType = false ->
   isImageType mimeType = false ->
     ProcessedDocument.confidence doc = 1.0%float /\
     ProcessedDocument.extractedText doc = Buf.toString Buf.Utf8 (buffer file)).
Proof.
  intros Hrun mimeType.
  destruct (processDocument_Ok_inv ext env file w w' doc Hrun)
    as (_ & wa & er & wb & Her & Htext & Hconf & _).
  destruct (extractText_Ok_shape ext file wa wb er Her) as (_ & _ & Hpdf & Hdoc & Hplain).
  rewrite Hconf, Htext. fold mimeType in Hpdf, Hdoc, Hplain. auto.
Qed.

(** The PDF that the parser rejects is processed with confidence 0 and no
    text. *)
Lemma processDocument_confidence_by_category_witness :
  exists doc w',
    processDocument Scenario.collaborators Scenario.env Scenario.brokenPdf 0%Z = (Ok doc, w') /\
    ProcessedDocument.confidence doc = 0%float /\
    ProcessedDocument.extractedText doc = [].
Proof.
  destruct (processDocument Scenario.collaborators Scenario.env Scenario.brokenPdf 0%Z)
    as [[doc|e] w'] eqn:Hrun.
  - exists doc, w'. split; [reflexivity|].
    destruct (processDocument_confidence_by_category _ _ _ _ _ _ Hrun) as (Hpdf & _).
    destruct (Hpdf eq_refl) as [Hconf | Hfallback]; [|exact Hfallback].
    vm_compute in Hrun. injection Hrun as <- _. discriminate Hconf.
  - vm_compute in Hrun. discriminate Hrun.
Defined.

(** ** The UTF-8 decoding *)

Section Utf8Facts.

Local Open Scope N_scope.

Lemma utf16_units_length (cp : N) :
  (1 <= length (Buf.utf16_units cp) <= 2)%nat.
Proof. unfold Buf.utf16_units. destruct (cp <? 65536); simpl; lia. Qed.

Lemma utf16_units_small (cp : N) : cp < 65536 -> Buf.utf16_units cp = [cp].
Proof.
  intros Hcp. unfold Buf.utf16_units.
  now destruct (N.ltb_spec cp 65536); [|lia].
Qed.

(** A byte read with no sequence pending either gives one code unit and
    leaves no sequence pending, or gives nothing and opens a sequence. *)
Lemma utf8_lead_cases (b : N) :
  (exists c, Buf.utf8_lead b = ([c], Buf.utf8_init) /\ c < 65536) \/
  (exists st, Buf.utf8_lead b = ([], st) /\ Buf.needed st <> O).
Proof.
  unfold Buf.utf8_lead.
  destruct (N.leb_spec b 127); [left; exists b; split; [reflexivity | lia]|].
  destruct ((194 <=? b) && (b <=? 223)); [right; eexists; split; [reflexivity | discriminate]|].
  destruct ((224 <=? b) && (b <=? 239)); [right; eexists; split; [reflexivity | discriminate]|].
  destruct ((240 <=? b) && (b <=? 244)); [right; eexists; split; [reflexivity | discriminate]|].
  left. exists 65533. split; [reflexivity | lia].
Qed.

Local Abbreviation units cps := (concat (map Buf.utf16_units cps)).

(** The decoder gives at most one code unit per byte, one more being due
    for a pending sequence. *)
Lemma utf8_units_bound (bytes : list N) : forall st,
  (length (units (Buf.utf8_code_points st bytes)) <=
   length bytes + match Buf.needed st with O => 0 | S _ => 1 end)%nat.
Proof.
  induction bytes as [|b rest IH]; intros st; simpl.
  - destruct (Buf.needed st); simpl; lia.
  - destruct (Buf.needed st) as [|n].
    + destruct (utf8_lead_cases b) as [(c & -> & Hc) | (st' & -> & Hst')].
      * simpl. rewrite (utf16_units_small c Hc). simpl.
        specialize (IH Buf.utf8_init). simpl in IH. lia.
      * simpl. specialize (IH st'). destruct (Buf.needed st'); [contradiction|]. lia.
    + destruct ((Buf.lower st <=? b) && (b <=? Buf.upper st)).
      * destruct n as [|n].
        -- simpl. rewrite length_app.
           pose proof (utf16_units_length
                         (N.lor (N.shiftl (Buf.code_point st) 6) (N.land b 63))).
           specialize (IH Buf.utf8_init). simpl in IH. lia.
        -- match goal with |- context [Buf.utf8_code_points ?s rest] => specialize (IH s) end.
           simpl in IH. lia.
      * destruct (utf8_lead_cases b) as [(c & -> & Hc) | (st' & -> & Hst')].
        -- simpl. rewrite (utf16_units_small c Hc). simpl.
           specialize (IH Buf.utf8_init). simpl in IH. lia.
        -- simpl. specialize (IH st'). destruct (Buf.needed st'); [contradiction|]. lia.
Qed.

(** The decoder gives something for every byte sequence that is not empty. *)
Lemma utf8_code_points_nonempty (bytes : list N) : forall st,
  bytes <> [] \/ Buf.needed st <> O ->
  Buf.utf8_code_points st bytes <> [].
Proof.
  induction bytes as [|b rest IH]; intros st Hsome; simpl.
  - destruct (Buf.needed st); [destruct Hsome; contradiction | discriminate].
  - destruct (Buf.needed st) as [|n].
    + destruct (utf8_lead_cases b) as [(c & -> & Hc) | (st' & -> & Hst')].
      * discriminate.
      * simpl. apply IH. now right.
    + destruct ((Buf.lower st <=? b) && (b <=? Buf.upper st)).
      * destruct n as [|n]; [discriminate|]. apply IH. right. discriminate.
      * destruct (Buf.utf8_lead b). discriminate.
Qed.

Lemma units_nonempty (cps : list N) : cps <> [] -> units cps <> [].
Proof.
  destruct cps as [|cp cps]; [contradiction|]. intros _. simpl.
  pose proof (utf16_units_length cp) as Hlen.
  destruct (Buf.utf16_units cp); [simpl in Hlen; lia | discriminate].
Qed.

(** On bytes below 128 the decoder is the identity. *)
Lemma utf8_code_points_ascii (bytes : list N) :
  Forall (fun b => b < 128) bytes ->
  units (Buf.utf8_code_points Buf.utf8_init bytes) = bytes.
Proof.
  induction 1 as [|b rest Hb Hrest IH]; [reflexivity|].
  simpl. unfold Buf.utf8_lead.
  destruct (N.leb_spec b 127); [|lia].
  simpl. rewrite utf16_units_small by lia. simpl. now rewrite IH.
Qed.

End Utf8Facts.

(** X9. The text of a plain-text file is never longer than the file: the
    extraction returns at most one code unit per byte, so at most the bytes
    divided by 3000, rounded up, as pages. An empty file gives an empty
    text and 0 pages, any other file a text that is not empty and at least
    one page. *)
Theorem extractFromText_text_size {World} (buf : Buffer) (w : World) :
  exists r,
    extractFromText buf w = (Ok r, w) /\
    (length (ExtractionResult.text r) <= length buf)%nat /\
    3000 * ExtractionResult.pages r < N.of_nat (length buf) + 3000 /\
    (buf = [] -> ExtractionResult.text r = [] /\ ExtractionResult.pages r = 0) /\
    (buf <> [] -> ExtractionResult.text r <> [] /\ 1 <= ExtractionResult.pages r).
Proof.
  rewrite extractFromText_Ok. eexists. split; [reflexivity|].
  cbn [ExtractionResult.text ExtractionResult.pages].
  assert (Hlen : (length (Buf.toString Buf.Utf8 buf) <= length buf)%nat).
  { unfold Buf.toString.
    pose proof (utf8_units_bound (map Byte.to_N buf) Buf.utf8_init) as Hbound.
    simpl in Hbound. rewrite length_map in Hbound. lia. }
  destruct (estimatePages_ceil (Buf.toString Buf.Utf8 buf)) as [Hlow Hhigh].
  split; [exact Hlen|]. split; [lia|]. split.
  - intros ->. split; reflexivity.
  - intros Hbuf.
    assert (Htext : Buf.toString Buf.Utf8 buf <> []).
    { unfold Buf.toString. apply units_nonempty, utf8_code_points_nonempty.
      left. destruct buf; [contradiction | discriminate]. }
    split; [exact Htext|].
    destruct (Buf.toString Buf.Utf8 buf) as [|c text]; [contradiction|].
    simpl length in Hlow. lia.
Qed.

(** The euro sign takes three bytes and one code unit. *)
Lemma extractFromText_text_size_witness :
  exists r,
    extractFromText [xe2; x82; xac] 0%Z = (Ok r, 0%Z) /\
    ExtractionResult.text r = [8364] /\ ExtractionResult.pages r = 1.
Proof.
  destruct (extractFromText_text_size [xe2; x82; xac] 0%Z)
    as (r & Hrun & _ & _ & _ & Hsome).
  exists r. split; [exact Hrun|].
  rewrite extractFromText_Ok in Hrun. injection Hrun as <-.
  split; reflexivity.
Defined.

(** X10. A file of ASCII bytes is extracted as it is: its text is the
    sequence of its bytes, which is also what the latin1 decoding gives. *)
Theorem extractFromText_ascii {World} (buf : Buffer) (w : World) :
  Forall (fun b => Byte.to_N b < 128) buf ->
  exists r,
    extractFromText buf w = (Ok r, w) /\
    ExtractionResult.text r = map Byte.to_N buf /\
    ExtractionResult.text r = Buf.toString Buf.Latin1 buf.
Proof.
  intros Hascii. rewrite extractFromText_Ok. eexists. split; [reflexivity|]. simpl.
  assert (Htext : Buf.toString Buf.Utf8 buf = map Byte.to_N buf).
  { unfold Buf.toString. apply utf8_code_points_ascii.
    now apply Forall_map. }
  now split.
Qed.

Lemma extractFromText_ascii_witness :
  exists r,
    extractFromText (Scenario.bytes "hello") 0%Z = (Ok r, 0%Z) /\
    ExtractionResult.text r = js "hello".
Proof.
  destruct (extractFromText_ascii (Scenario.bytes "hello") 0%Z) as (r & Hrun & Htext & _).
  - repeat constructor.
  - exists r. split; [exact Hrun | exact Htext].
Defined.

(** ** Validation and dispatch *)

(** No entry of the table, extended by something, is the PDF entry, a Word
    entry or the plain-text entry. *)
Lemma extension_not_entry (type rest target : jsstring) :
  In type SUPPORTED_TYPES.values_flat ->
  In target (SUPPORTED_TYPES.pdf ++ SUPPORTED_TYPES.doc ++ SUPPORTED_TYPES.text) ->
  rest <> [] ->
  type ++ rest <> target.
Proof.
  intros Hin Htarget Hrest Heq.
  assert (Hprefix : startsWith target type = true)
    by (apply startsWith_spec; now exists rest).
  assert (Hsame : type = target -> False).
  { intros ->. apply Hrest. apply (app_inv_head target). now rewrite app_nil_r. }
  clear Heq Hrest.
  repeat (destruct Hin as [<-|Hin];
          [repeat (destruct Htarget as [<-|Htarget];
                   [first [discriminate Hprefix | exact (Hsame eq_refl)]|]);
           destruct Htarget|]).
  destruct Hin.
Qed.

(** X11. A file that passes validation with a declared type that is not
    itself an entry of the table is never handed to the PDF, Word or
    plain-text extractor: the dispatcher runs the image extraction when the
    lower-cased type contains an image subtype, and otherwise throws an
    error whose message starts with "Unsupported file type: ". When the
    code units of the declared type are all below U+0100, the message is
    that prefix followed by the lower-cased type. *)
Theorem extractText_inexact_type
    (env : Env) (file : File) :
  isValid (validateFile env (Some file)) = true ->
  ~ In (mimetype file) SUPPORTED_TYPES.values_flat ->
  let mimeType := toLowerCase (mimetype file) in
  isPdfType mimeType = false /\ isDocType mimeType = false /\
  isTextType mimeType = false /\
  forall World (ext : Collaborators World) (w : World),
    (isImageType mimeType = true ->
       extractText ext file w = extractFromImage ext (buffer file) w) /\
    (isImageType mimeType = false ->
       exists e,
         extractText ext file w = (Throw e, w) /\
         startsWith (message e) (js "Unsupported file type: ") = true /\
         (Forall (fun c => c < 256) (mimetype file) ->
          message e = js "Unsupported file type: " ++ mimeType)).
Proof.
  intros Hvalid Hinexact mimeType.
  assert (Hsup : isTypeSupported (mimetype file) = true).
  { unfold validateFile in Hvalid.
    destruct (size file >? maxSize env)%Z; [discriminate|].
    now destruct (isTypeSupported (mimetype file)). }
  apply isTypeSupported_spec in Hsup as (type & rest & Hin & Hm).
  assert (Hrest : toLowerCase rest <> []).
  { destruct rest; [|discriminate]. rewrite app_nil_r in Hm. congruence. }
  assert (Hlower : mimeType = type ++ toLowerCase rest).
  { subst mimeType. now rewrite Hm, toLowerCase_app, (toLowerCase_supported _ Hin). }
  assert (Hnot : forall target,
            In target (SUPPORTED_TYPES.pdf ++ SUPPORTED_TYPES.doc ++ SUPPORTED_TYPES.text) ->
            mimeType <> target).
  { intros target Htarget. rewrite Hlower. now apply extension_not_entry. }
  assert (Hpdf : isPdfType mimeType = false).
  { apply not_true_is_false. intros H. apply array_includes_In in H.
    apply (Hnot mimeType); [|reflexivity]. apply in_or_app. now left. }
  assert (Hdoc : isDocType mimeType = false).
  { apply not_true_is_false. intros H. apply array_includes_In in H.
    apply (Hnot mimeType); [|reflexivity]. apply in_or_app. right.
    apply in_or_app. now left. }
  assert (Htext : isTextType mimeType = false).
  { apply not_true_is_false. intros H. apply array_includes_In in H.
    apply (Hnot mimeType); [|reflexivity]. apply in_or_app. right.
    apply in_or_app. now right. }
  split; [exact Hpdf|]. split; [exact Hdoc|]. split; [exact Htext|].
  intros World ext w. split; intros Himg; unfold extractText; fold mimeType;
    rewrite Hpdf, Hdoc, Himg, ?Htext, try_catch_rethrow.
  - reflexivity.
  - exists (unsupportedError mimeType). split; [reflexivity|].
    split; [apply startsWith_app | reflexivity].
Qed.

(** The text file declared with a charset parameter is rejected by the
    dispatcher, with its type in the message. *)
Lemma extractText_inexact_type_witness :
  exists e,
    extractText Scenario.collaborators Scenario.charsetFile 0%Z = (Throw e, 0%Z) /\
    message e = js "Unsupported file type: text/plain; charset=utf-8".
Proof.
  destruct (extractText_inexact_type Scenario.env Scenario.charsetFile)
    as (_ & _ & _ & Hrun).
  - reflexivity.
  - intros Hin. repeat (destruct Hin as [Hin|Hin]; [discriminate Hin|]). destruct Hin.
  - destruct (proj2 (Hrun _ Scenario.collaborators 0%Z) eq_refl) as (e & He & _ & Hmsg).
    exists e. split; [exact He|]. apply Hmsg.
    repeat (constructor; [reflexivity|]). constructor.
Defined.

(** X12. Validation looks at the beginning of the declared type only: when
    a file is accepted, the same file with anything appended to its
    declared type is accepted too. *)
Theorem validateFile_accepts_extensions
    (env : Env) (file : File) (suffix : jsstring) :
  isValid (validateFile env (Some file)) = true ->
  isValid (validateFile env
             (Some {| originalname := originalname file;
                      mimetype := mimetype file ++ suffix;
                      size := size file;
                      buffer := buffer file |})) = true.
Proof.
  unfold validateFile. simpl.
  destruct (size file >? maxSize env)%Z; [discriminate|].
  destruct (isTypeSupported (mimetype file)) eqn:Hsup; [|discriminate].
  intros _. apply isTypeSupported_spec in Hsup as (type & rest & Hin & ->).
  assert (Hext : isTypeSupported ((type ++ rest) ++ suffix) = true).
  { apply isTypeSupported_spec. exists type, (rest ++ suffix).
    split; [assumption|]. now rewrite app_assoc. }
  now rewrite Hext.
Qed.

(** A PDF declared as "application/pdf.exe" is accepted. *)
Lemma validateFile_accepts_extensions_witness :
  isValid (validateFile Scenario.env
             (Some {| originalname := js "scan.pdf";
                      mimetype := js "application/pdf.exe";
                      size := 4;
                      buffer := Scenario.bytes "oops" |})) = true.
Proof.
  exact (validateFile_accepts_extensions Scenario.env Scenario.brokenPdf (js ".exe") eq_refl).
Defined.

(** ** More on the word count and the language heuristic *)

Section EnrichmentFacts.

Local Abbreviation count l := (length (List.filter nonEmpty l)).

Lemma spec_tokens_separator (a b : jsstring) (c : N) : forall cur,
  isWhiteSpace c = true ->
  count (spec_tokens cur (a ++ c :: b)) =
  (count (spec_tokens cur a) + count (spec_tokens [] b))%nat.
Proof.
  induction a as [|d a IH]; intros cur Hc; simpl.
  - rewrite Hc. simpl. destruct (nonEmpty cur); simpl; lia.
  - destruct (isWhiteSpace d); simpl.
    + destruct (nonEmpty cur); simpl; rewrite IH by assumption; lia.
    + now apply IH.
Qed.

Lemma nonEmpty_snoc (cur : jsstring) (c : N) : nonEmpty (cur ++ [c]) = true.
Proof. unfold nonEmpty. rewrite length_app. simpl. apply Nat.ltb_lt. lia. Qed.

(** A piece that has begun is counted, whatever follows. *)
Lemma spec_tokens_started (s : jsstring) : forall cur,
  nonEmpty cur = true -> (1 <= count (spec_tokens cur s))%nat.
Proof.
  induction s as [|c s IH]; intros cur Hcur; simpl.
  - rewrite Hcur. simpl. lia.
  - destruct (isWhiteSpace c); simpl.
    + rewrite Hcur. simpl. lia.
    + apply IH, nonEmpty_snoc.
Qed.

Lemma spec_tokens_none (s : jsstring) :
  count (spec_tokens [] s) = 0%nat <-> Forall (fun c => isWhiteSpace c = true) s.
Proof.
  induction s as [|c s IH]; simpl.
  - split; [constructor | reflexivity].
  - destruct (isWhiteSpace c) eqn:Hc; simpl.
    + rewrite IH. split; [now constructor | now inversion 1].
    + split.
      * intros Hzero. pose proof (spec_tokens_started s [c] eq_refl). simpl in *. lia.
      * inversion 1; congruence.
Qed.

Lemma lowerUnit_idempotent (c : N) : lowerUnit (lowerUnit c) = lowerUnit c.
Proof.
  unfold lowerUnit.
  destruct (N.leb_spec 65 c), (N.leb_spec c 90), (N.leb_spec 192 c),
           (N.leb_spec c 222), (N.eqb_spec c 215); simpl; try lia;
    repeat match goal with
           | |- context [N.leb ?a ?b] => destruct (N.leb_spec a b); simpl; try lia
           | |- context [N.eqb ?a ?b] => destruct (N.eqb_spec a b); simpl; try lia
           end; reflexivity.
Qed.

Lemma toLowerCase_idempotent (s : jsstring) :
  toLowerCase (toLowerCase s) = toLowerCase s.
Proof.
  unfold toLowerCase. rewrite map_map. apply map_ext. apply lowerUnit_idempotent.
Qed.

(** The first pieces of a split do not depend on what comes after them. *)
Lemma split_ws_from_firstn (s extra : jsstring) : forall in_ws cur n,
  (n < length (split_ws_from in_ws cur s))%nat ->
  firstn n (split_ws_from in_ws cur (s ++ extra)) =
  firstn n (split_ws_from in_ws cur s).
Proof.
  induction s as [|c s IH]; intros in_ws cur n Hn; simpl in *.
  - replace n with 0%nat by lia. reflexivity.
  - destruct (isWhiteSpace c).
    + destruct in_ws; [now apply IH|].
      destruct n as [|n]; [reflexivity|]. simpl in *. f_equal. apply IH. lia.
    + now apply IH.
Qed.

End EnrichmentFacts.

(** X13. Word counts add up over white space: the count of two texts joined
    by a white-space code unit is the sum of their counts. *)
Theorem countWords_separator (a b : jsstring) (c : N) :
  isWhiteSpace c = true ->
  countWords (a ++ c :: b) = (countWords a + countWords b)%nat.
Proof.
  intros Hc. rewrite !countWords_spec_wordCount. unfold spec_wordCount.
  now apply spec_tokens_separator.
Qed.

Lemma countWords_separator_witness :
  countWords (js "first part" ++ 10 :: js "second") = 3%nat.
Proof.
  rewrite (countWords_separator (js "first part") (js "second") 10 eq_refl).
  reflexivity.
Defined.

(** X14. The word count is 0 exactly for the texts made of white space
    only, the empty text among them. *)
Theorem countWords_zero (text : jsstring) :
  countWords text = 0%nat <-> Forall (fun c => isWhiteSpace c = true) text.
Proof.
  rewrite countWords_spec_wordCount. apply spec_tokens_none.
Qed.

(** X15. The language tag does not depend on the case of the letters of
    Basic Latin and Latin-1: two texts that are equal code unit by code
    unit, up to the case of A-Z and of U+00C0-U+00DE (the multiplication
    sign apart), get the same tag. *)
Theorem detectLanguage_case_insensitive (text1 text2 : jsstring) :
  Forall2 (fun c1 c2 => lowerUnit c1 = lowerUnit c2) text1 text2 ->
  detectLanguage text1 = detectLanguage text2.
Proof.
  intros Hcase.
  assert (Hlower : toLowerCase text1 = toLowerCase text2).
  { unfold toLowerCase. induction Hcase as [|c1 c2 t1 t2 Hc _ IH]; simpl; congruence. }
  unfold detectLanguage.
  destruct Hcase as [|c1 c2 t1 t2 Hc Hrest]; [reflexivity|].
  now rewrite Hlower.
Qed.

Lemma detectLanguage_case_insensitive_witness :
  detectLanguage (js "EL CONTRATO Y LA LEY") = js "es".
Proof.
  rewrite (detectLanguage_case_insensitive
             (js "EL CONTRATO Y LA LEY") (js "el contrato y la ley")).
  - reflexivity.
  - repeat (constructor; [reflexivity|]). constructor.
Defined.

(** X16. The language tag is decided by the beginning of the text: when a
    text splits into more than 100 tokens, whatever is appended to it does
    not change its tag. *)
Theorem detectLanguage_ignores_tail (text extra : jsstring) :
  (100 < length (split_ws (toLowerCase text)))%nat ->
  detectLanguage (text ++ extra) = detectLanguage text.
Proof.
  intros Hlong.
  assert (Hwords : scoredWords (text ++ extra) = scoredWords text).
  { unfold scoredWords, slice0, split_ws. rewrite toLowerCase_app.
    now apply split_ws_from_firstn. }
  unfold detectLanguage. fold (scoredWords (text ++ extra)) (scoredWords text).
  destruct text as [|c text]; [simpl in Hlong; lia|].
  simpl app. fold (scoredWords (c :: text ++ extra)).
  change (c :: text ++ extra) with ((c :: text) ++ extra). now rewrite Hwords.
Qed.

(** A text of 101 French articles: what follows them is not read. *)
Lemma detectLanguage_ignores_tail_witness :
  detectLanguage (concat (repeat (js "le ") 101) ++ js "the and of the") = js "fr".
Proof.
  rewrite (detectLanguage_ignores_tail (concat (repeat (js "le ") 101)) (js "the and of the")).
  - reflexivity.
  - vm_compute. lia.
Defined.

(** * The voice routes *)

(** Every type of the list of the upload filter is an audio type. *)
Lemma allowedTypes_audio (m : jsstring) :
  array_includes Voice.allowedTypes m = true -> startsWith m (js "audio/") = true.
Proof.
  intros Hin. apply array_includes_In in Hin.
  repeat (destruct Hin as [<-|Hin]; [reflexivity|]). destruct Hin.
Qed.

(** X17. The filter of the audio upload accepts a file exactly when its
    declared type starts with "audio/" (the list of types adds nothing). A
    rejected file is refused with an error naming its type, which the error
    middleware answers with status 400 and "Unsupported audio format". *)
Theorem fileFilter_audio_prefix (file : File) :
  (startsWith (mimetype file) (js "audio/") = true -> Voice.fileFilter file = Ok true) /\
  (startsWith (mimetype file) (js "audio/") = false ->
     exists e,
       Voice.fileFilter file = Throw e /\
       message e = js "Unsupported audio type: " ++ mimetype file /\
       Voice.errorMiddleware (Voice.OtherError e) =
         Voice.Respond 400
           {| Voice.body_error := js "Unsupported audio format";
              Voice.body_message := message e;
              Voice.supportedFormats :=
                Some [js "audio/webm"; js "audio/wav"; js "audio/mp4";
                      js "audio/mpeg"; js "audio/ogg"] |}).
Proof.
  unfold Voice.fileFilter. split.
  - intros ->. now rewrite orb_true_r.
  - intros Hprefix.
    destruct (array_includes Voice.allowedTypes (mimetype file)) eqn:Hlist.
    + apply allowedTypes_audio in Hlist. congruence.
    + rewrite Hprefix. cbn [orb]. eexists. split; [reflexivity|]. split; [reflexivity|].
      assert (Hphrase : includes (js "Unsupported audio type: " ++ mimetype file)
                                 (js "Unsupported audio type") = true)
        by exact (includes_app [] (js "Unsupported audio type") (js ": " ++ mimetype file)).
      unfold Voice.errorMiddleware. cbn [Voice.errorMessage message].
      now rewrite Hphrase.
Qed.

(** A FLAC recording passes though it is not on the list; a PDF does not. *)
Lemma fileFilter_audio_prefix_witness :
  Voice.fileFilter {| originalname := js "q.flac"; mimetype := js "audio/flac";
                      size := 3; buffer := [] |} = Ok true /\
  Voice.fileFilter Scenario.brokenPdf =
    Throw {| message := js "Unsupported audio type: application/pdf" |}.
Proof.
  split.
  - exact (proj1 (fileFilter_audio_prefix
                    {| originalname := js "q.flac"; mimetype := js "audio/flac";
                       size := 3; buffer := [] |}) eq_refl).
  - destruct (proj2 (fileFilter_audio_prefix Scenario.brokenPdf) eq_refl)
      as (e & Hrun & Hmsg & _).
    rewrite Hrun. destruct e as [m]. simpl in Hmsg. now rewrite Hmsg.
Defined.

(** X19. The history route numbers the exchanges from 1: when the voice
    service returns a conversation, the answer has status 200, as many
    entries as exchanges, [totalExchanges] equal to that number, and its
    entry at position [i] is exchange [i] with index [i + 1]. When the
    service throws, the answer has status 500 and carries the message. *)
Theorem getHistory_numbers_exchanges
    {World} (getConversationHistory : jsstring -> M World (list Voice.Exchange))
    (sessionId : jsstring) (w : World) :
  (forall exchanges w', getConversationHistory sessionId w = (Ok exchanges, w') ->
     exists data,
       Voice.getHistory getConversationHistory sessionId w =
         (Ok (Voice.HistoryOk 200 true data), w') /\
       Voice.sessionId data = sessionId /\
       Voice.totalExchanges data = length exchanges /\
       length (Voice.history data) = length exchanges /\
       forall (i : nat) exchange, exchanges !! i = Some exchange ->
         Voice.history data !! i =
           Some {| Voice.index := i + 1;
                   Voice.entry_timestamp := Voice.timestamp exchange;
                   Voice.entry_query := Voice.query exchange;
                   Voice.entry_response := Voice.response exchange;
                   Voice.entry_confidence := Voice.confidence exchange |}) /\
  (forall e w', getConversationHistory sessionId w = (Throw e, w') ->
     Voice.getHistory getConversationHistory sessionId w =
       (Ok (Voice.HistoryError 500 (js "Failed to retrieve history") (message e)), w')).
Proof.
  unfold Voice.getHistory, try_catch, bind, ret. split.
  - intros exchanges w' ->. eexists. split; [reflexivity|]. simpl.
    split; [reflexivity|]. split; [reflexivity|]. split; [apply length_imap|].
    intros i exchange Hi. rewrite list_lookup_imap, Hi. reflexivity.
  - intros e w' ->. reflexivity.
Qed.

(** Two exchanges are numbered 1 and 2. *)
Lemma getHistory_numbers_exchanges_witness :
  exists data,
    Voice.getHistory
      (fun _ => ret [ {| Voice.timestamp := JNumber 10; Voice.query := JString (js "q1");
                         Voice.response := JString (js "r1"); Voice.confidence := JFloat 0.9 |};
                      {| Voice.timestamp := JNumber 20; Voice.query := JString (js "q2");
                         Voice.response := JString (js "r2"); Voice.confidence := JFloat 0.8 |} ])
      (js "session-1") tt = (Ok (Voice.HistoryOk 200 true data), tt) /\
    Voice.totalExchanges data = 2%nat /\
    map Voice.index (Voice.history data) = [1%nat; 2%nat].
Proof.
  destruct (getHistory_numbers_exchanges
              (fun _ => ret [ {| Voice.timestamp := JNumber 10; Voice.query := JString (js "q1");
                                 Voice.response := JString (js "r1");
                                 Voice.confidence := JFloat 0.9 |};
                              {| Voice.timestamp := JNumber 20; Voice.query := JString (js "q2");
                                 Voice.response := JString (js "r2");
                                 Voice.confidence := JFloat 0.8 |} ])
              (js "session-1") tt) as [Hok _].
  destruct (Hok _ _ eq_refl) as (data & Hrun & _ & Htotal & _ & _).
  exists data. split; [exact Hrun|]. split; [exact Htotal|].
  injection Hrun as <-. reflexivity.
Defined.

(** * The document list of the chat page *)





(** * Batches compose *)

Lemma successes_app (run1 run2 : list (File * Result ProcessedDocument.t)) :
  successes (run1 ++ run2) = successes run1 ++ successes run2.
Proof.
  induction run1 as [|[file [doc|e]] rest IH]; simpl; [reflexivity | | assumption].
  now rewrite IH.
Qed.

Lemma failures_app (run1 run2 : list (File * Result ProcessedDocument.t)) :
  failures (run1 ++ run2) = failures run1 ++ failures run2.
Proof.
  induction run1 as [|[file [doc|e]] rest IH]; simpl; [reflexivity | assumption |].
  now rewrite IH.
Qed.

(** X6. Processing a batch in two parts gives the same lists as processing
    it at once: when the second part is processed in the world that the
    first part left, the successes and the failures of the whole batch are
    those of the first part followed by those of the second, and the totals
    add up. *)
Theorem processDocuments_app
    {World} (ext : Collaborators World) (env : Env) (files1 files2 : list File)
    (w w1 w2 : World) (r1 r2 : BatchResult) :
  processDocuments ext env files1 w = (Ok r1, w1) ->
  processDocuments ext env files2 w1 = (Ok r2, w2) ->
  exists r,
    processDocuments ext env (files1 ++ files2) w = (Ok r, w2) /\
    successful r = successful r1 ++ successful r2 /\
    failed r = failed r1 ++ failed r2 /\
    totalProcessed r = (totalProcessed r1 + totalProcessed r2)%nat.
Proof.
  rewrite !processDocuments_attempts. intros [= <- <-] [= <- <-].
  rewrite attempts_app. eexists. split; [reflexivity|]. simpl.
  rewrite successes_app, failures_app, length_app. auto.
Qed.

(** A text file, then an archive: one success followed by one failure. *)
Lemma processDocuments_app_witness :
  exists r,
    fst (processDocuments Scenario.collaborators Scenario.env
           ([Scenario.textFile "a.txt" "hello"] ++ [Scenario.zipFile]) 0%Z) = Ok r /\
    length (successful r) = 1%nat /\ length (failed r) = 1%nat /\
    totalProcessed r = 2%nat.
Proof.
  destruct (processDocuments Scenario.collaborators Scenario.env
              [Scenario.textFile "a.txt" "hello"] 0%Z) as [[r1|e] w1] eqn:Hfirst;
    [|vm_compute in Hfirst; discriminate Hfirst].
  destruct (processDocuments Scenario.collaborators Scenario.env
              [Scenario.zipFile] w1) as [[r2|e] w2] eqn:Hsecond.
  - destruct (processDocuments_app _ _ _ _ _ _ _ _ _ Hfirst Hsecond)
      as (r & Hrun & Hok & Hfailed & Htotal).
    exists r. rewrite Hrun. split; [reflexivity|].
    rewrite Hok, Hfailed, Htotal, !length_app.
    vm_compute in Hfirst. injection Hfirst as <- <-.
    vm_compute in Hsecond. injection Hsecond as <- _.
    repeat split; reflexivity.
  - vm_compute in Hfirst. injection Hfirst as _ <-.
    vm_compute in Hsecond. discriminate Hsecond.
Defined.

(** * The configured size limit *)

(** X18. The size limit follows MAX_FILE_SIZE_MB: unset, unparsable or 0
    means 50 MB, and any other parsed number of megabytes of magnitude up
    to 2^53 (the integers that a JavaScript number holds exactly) is taken
    as it is. A negative number therefore rejects every file, with a
    message that quotes it. *)
Theorem maxSize_configuration (env : Env) :
  let parsed :=
    match MAX_FILE_SIZE_MB env with
    | Some s => parseInt s
    | None => None
    end in
  (parsed = None \/ parsed = Some 0%Z -> maxSize env = (50 * 1024 * 1024)%Z) /\
  (forall mb, parsed = Some mb -> mb <> 0%Z -> (Z.abs mb <= 2 ^ 53)%Z ->
     maxSize env = (mb * 1024 * 1024)%Z /\
     ((mb < 0)%Z -> forall file, (0 <= size file)%Z ->
        validateFile env (Some file) =
          {| isValid := false;
             error := Some (js "File size too large. Maximum allowed: " ++
                            numberToString mb ++ js "MB") |})).
Proof.
  intros parsed. split.
  - intros [Hnone | Hzero]; unfold maxSize; fold parsed.
    + now rewrite Hnone.
    + now rewrite Hzero.
  - intros mb Hmb Hne _.
    assert (Hmax : maxSize env = (mb * 1024 * 1024)%Z).
    { unfold maxSize. fold parsed. rewrite Hmb. now destruct mb. }
    split; [exact Hmax|]. intros Hneg file Hsize.
    unfold validateFile.
    destruct (Z.gtb_spec (size file) (maxSize env)) as [_|Hle]; [|lia].
    rewrite Hmax. do 3 f_equal.
    rewrite <- Z.mul_assoc. now rewrite Z.div_mul.
Qed.

(** With MAX_FILE_SIZE_MB set to -1 an empty text file is too large. *)
Lemma maxSize_configuration_witness :
  validateFile {| MAX_FILE_SIZE_MB := Some (js "-1"); ALLOWED_FILE_TYPES := None |}
    (Some (Scenario.textFile "empty.txt" "")) =
    {| isValid := false;
       error := Some (js "File size too large. Maximum allowed: -1MB") |}.
Proof.
  destruct (maxSize_configuration
              {| MAX_FILE_SIZE_MB := Some (js "-1"); ALLOWED_FILE_TYPES := None |})
    as [_ Hset].
  destruct (Hset (-1)%Z eq_refl) as [_ Hneg]; [discriminate | vm_compute; discriminate|].
  rewrite Hneg; [reflexivity | reflexivity | discriminate].
Defined.
